(** * Scheduling and task execution of the web scraper

    A shallow embedding of [database.py], [scraper.py] and [scheduler.py].
    Python dictionaries with a fixed set of keys are records, the beat
    schedule (a dict keyed by formatted strings) is a [gmap string _],
    tables are lists of rows in insertion order, and code that can raise
    lives in a state-and-exception monad over the process state.

    What the code cannot see from the inside is an explicit environment:
    the network, the browser, the result backend and celery's [crontab]
    constructor answer through the fields of [Net] and [Env]. Integers are
    [Z], except counts (retries, list lengths), which are [nat]; the clock
    is in seconds. Logging is not modelled. *)

From Stdlib Require Import ZArith Lia Ascii.
From stdpp Require Import base strings gmap list pretty sorting.

Open Scope string_scope.
Open Scope nat_scope.

(** ** Outcomes of Python code: a value, or an exception with its [str()]. *)

Inductive outcome (A : Type) : Type :=
| Normal (a : A)
| Raised (msg : string).
Arguments Normal {A} a.
Arguments Raised {A} msg.

Definition is_normal {A} (o : outcome A) : Prop :=
  match o with Normal _ => True | Raised _ => False end.

(** ** The fragment of [str] the code uses *)

Module PyStr.

(** [s.startswith(p)] *)
Definition startswith (s p : string) : bool := String.prefix p s.

(** [s.replace(old, new)] for a non-empty [old]: every non-overlapping
    occurrence, scanning from the left. [skip] counts the characters of a
    matched occurrence still to be dropped. *)
Fixpoint replace_go (old new : string) (skip : nat) (s : string) : string :=
  match s with
  | EmptyString => EmptyString
  | String c s' =>
      match skip with
      | S k => replace_go old new k s'
      | O =>
          if String.prefix old s
          then new +:+ replace_go old new (String.length old - 1) s'
          else String c (replace_go old new 0 s')
      end
  end.
Definition replace (s old new : string) : string := replace_go old new 0 s.

(** [s.split(sep)] for a one-character separator. *)
Fixpoint split (sep : Ascii.ascii) (s : string) : list string :=
  match s with
  | EmptyString => [EmptyString]
  | String c s' =>
      if Ascii.eqb c sep then EmptyString :: split sep s'
      else match split sep s' with
           | [] => [String c EmptyString]
           | w :: ws => String c w :: ws
           end
  end.

(** [s.strip()], for the ASCII white space characters (tab, line feed,
    vertical tab, form feed, carriage return, space); Python also strips
    the Unicode ones. *)
Fixpoint lstrip (s : string) : string :=
  match s with
  | EmptyString => EmptyString
  | String c s' => if Ascii.is_space c then lstrip s' else s
  end.
Definition strip (s : string) : string :=
  String.rev (lstrip (String.rev (lstrip s))).

(** [sep.join(l)] *)
Fixpoint join (sep : string) (l : list string) : string :=
  match l with
  | [] => EmptyString
  | [x] => x
  | x :: xs => x +:+ sep +:+ join sep xs
  end.

(** Truthiness of a string, and of an optional string ([None] is falsy). *)
Definition truthy (s : string) : bool := negb (String.eqb s EmptyString).
Definition otruthy (o : option string) : bool :=
  match o with Some s => truthy s | None => false end.

(** [a or b] on optional strings. *)
Definition or_else (a b : option string) : option string :=
  if otruthy a then a else b.

End PyStr.

(** ** Result dictionaries *)

(** Values stored in a result's [metadata] dictionary. *)
Inductive MetaVal : Type :=
| MStr (s : string)
| MList (l : list string)
| MInt (n : Z).

(** The dictionary every scraping path builds:
    [{'url', 'title', 'content', 'metadata', 'source', 'status'}]. *)
Record ScrapeResult : Type := mkScrapeResult {
  r_url : string;
  r_title : string;
  r_content : string;
  r_metadata : gmap string MetaVal;
  r_source : string;
  r_status : string
}.

(** [{'url': url, 'title': '', 'content': '', 'metadata': {},
      'source': source, 'status': f'error: {str(e)}'}] *)
Definition error_result (url source msg : string) : ScrapeResult :=
  mkScrapeResult url "" "" ∅ source ("error: " +:+ msg).

(** ** database.py *)

Module database.

(** A row of [scraped_data]; [metadata] is stored as its JSON text, which
    determines the dictionary, so the dictionary itself is kept. *)
Record ScrapedRow : Type := mkScrapedRow {
  sd_id : Z;
  sd_url : string;
  sd_title : string;
  sd_content : string;
  sd_metadata : gmap string MetaVal;
  sd_scraped_at : Z;
  sd_source : string;
  sd_status : string
}.

(** A row of [scraping_jobs]; [last_run] and [next_run] have no default
    and are NULL ([None]) unless written. *)
Record JobRow : Type := mkJobRow {
  job_id : Z;
  job_url : string;
  job_schedule : string;
  job_last_run : option Z;
  job_next_run : option Z;
  job_status : string;
  job_created_at : Z
}.

(** The two tables the core uses, each with its AUTOINCREMENT counter
    (the largest row id ever handed out). *)
Record Database : Type := mkDatabase {
  scraped_data : list ScrapedRow;
  scraped_data_seq : Z;
  scraping_jobs : list JobRow;
  scraping_jobs_seq : Z
}.

Definition empty : Database := mkDatabase [] 0 [] 0.

(** An integer sqlite3 can bind to a statement: SQLite's INTEGER is signed
    and 64 bits wide, and a Python int outside it makes the call raise
    [OverflowError] before the statement runs. Row ids are such integers. *)
Definition sqlite_int (z : Z) : bool :=
  (- 2 ^ 63 <=? z)%Z && (z <? 2 ^ 63)%Z.
Definition overflow_error : string :=
  "Python int too large to convert to SQLite INTEGER".

(** The row an [INSERT INTO scraped_data] makes of a result dictionary. *)
Definition row_of (rid : Z) (now : Z) (data : ScrapeResult) : ScrapedRow :=
  mkScrapedRow rid (r_url data) (r_title data) (r_content data)
    (r_metadata data) now (r_source data) (r_status data).

(** [insert_scraped_data(data)]: returns [cursor.lastrowid]. *)
Definition insert_scraped_data (now : Z) (data : ScrapeResult) (d : Database)
  : Z * Database :=
  let rid := (scraped_data_seq d + 1)%Z in
  (rid,
   mkDatabase (scraped_data d ++ [row_of rid now data])
     rid (scraping_jobs d) (scraping_jobs_seq d)).

(** [add_scraping_job(url, schedule)]: only [url] and [schedule] are
    supplied; [status] and [created_at] take their column defaults. *)
Definition add_scraping_job (now : Z) (url schedule : string) (d : Database)
  : Z * Database :=
  let jid := (scraping_jobs_seq d + 1)%Z in
  (jid,
   mkDatabase (scraped_data d) (scraped_data_seq d)
     (scraping_jobs d ++ [mkJobRow jid url schedule None None "active" now])
     jid).

Definition set_status (status : string) (r : JobRow) : JobRow :=
  mkJobRow (job_id r) (job_url r) (job_schedule r) (job_last_run r)
    (job_next_run r) status (job_created_at r).

Definition set_status_last_run (status : string) (t : Z) (r : JobRow) : JobRow :=
  mkJobRow (job_id r) (job_url r) (job_schedule r) (Some t)
    (job_next_run r) status (job_created_at r).

(** The [UPDATE ... WHERE id = ?] of [update_job_status], on one row. *)
Definition update_row (jid : Z) (status : string) (last_run : option Z)
    (r : JobRow) : JobRow :=
  if Z.eqb (job_id r) jid then
    match last_run with
    | Some t => set_status_last_run status t r
    | None => set_status status r
    end
  else r.

(** [update_job_status(job_id, status, last_run=None)], for a [job_id]
    that can be bound (see [sqlite_int]). *)
Definition update_job_status (jid : Z) (status : string)
    (last_run : option Z) (d : Database) : Database :=
  mkDatabase (scraped_data d) (scraped_data_seq d)
    (map (update_row jid status last_run) (scraping_jobs d))
    (scraping_jobs_seq d).

(** [get_active_jobs()]: [WHERE status = 'active' ORDER BY created_at DESC]. *)
Definition created_desc (a b : JobRow) : Prop :=
  (job_created_at b ≤ job_created_at a)%Z.
#[global] Instance created_desc_dec : RelDecision created_desc.
Proof. intros a b. unfold created_desc. apply _. Defined.

Definition get_active_jobs (d : Database) : list JobRow :=
  merge_sort created_desc
    (filter (λ r, job_status r = "active") (scraping_jobs d)).

End database.

(** ** The fragment of BeautifulSoup the static strategy uses *)

Module bs4.

(** A parsed document: text nodes and tags with attributes and children. *)
#[local] Unset Elimination Schemes.
Inductive node : Type :=
| Text (s : string)
| Elem (tag : string) (attrs : list (string * string)) (children : list node).
#[local] Set Elimination Schemes.

(** The soup is the list of top-level nodes of the document. *)
Definition soup : Type := list node.

(** [tag.get(name)] *)
Definition get (n : node) (name : string) : option string :=
  match n with
  | Text _ => None
  | Elem _ attrs _ =>
      snd <$> List.find (λ kv, String.eqb (fst kv) name) attrs
  end.

Definition has_tag (t : string) (n : node) : bool :=
  match n with
  | Text _ => false
  | Elem t' _ _ => String.eqb t' t
  end.

(** [for x in soup(tags): x.decompose()] on one node: the node disappears
    with its subtree when its tag is listed. *)
Fixpoint decompose (tags : list string) (n : node) : list node :=
  match n with
  | Text s => [Text s]
  | Elem t a kids =>
      if bool_decide (t ∈ tags) then []
      else [Elem t a (flat_map (decompose tags) kids)]
  end.
Definition decompose_all (tags : list string) (s : soup) : soup :=
  flat_map (decompose tags) s.

(** All tags below (and including) a node, in document order. *)
Fixpoint elements (n : node) : list node :=
  match n with
  | Text _ => []
  | Elem _ _ kids => n :: flat_map elements kids
  end.

(** [soup.find_all(tag)] and [soup.find(tag)] *)
Definition find_all (s : soup) (t : string) : list node :=
  List.filter (has_tag t) (flat_map elements s).
Definition find (s : soup) (t : string) : option node :=
  head (find_all s t).

(** The strings below a node, in document order. (bs4's own text
    extraction additionally leaves out what is inside [template], [rt] and
    [rp] elements.) *)
Fixpoint strings (n : node) : list string :=
  match n with
  | Text s => [s]
  | Elem _ _ kids => flat_map strings kids
  end.

(** [x.get_text()] *)
Definition get_text (ns : list node) : string :=
  PyStr.join "" (flat_map strings ns).

(** [x.get_text(separator=' ', strip=True)]: every string stripped, the
    empty ones dropped, the rest joined by the separator. *)
Definition get_text_sep (ns : list node) : string :=
  PyStr.join " "
    (List.filter PyStr.truthy (map PyStr.strip (flat_map strings ns))).

(** The text of one tag is the text of its children. *)
Definition tag_children (n : node) : list node :=
  match n with
  | Text s => [Text s]
  | Elem _ _ kids => kids
  end.

(** CSS matching for the three selector shapes the code uses: a tag name,
    [.class] and [#id]. *)
Definition css_matches (sel : string) (n : node) : bool :=
  match n with
  | Text _ => false
  | Elem t _ _ =>
      match sel with
      | String "."%char cls =>
          match get n "class" with
          | Some v => bool_decide (cls ∈ String.words v)
          | None => false
          end
      | String "#"%char i =>
          match get n "id" with
          | Some v => String.eqb v i
          | None => false
          end
      | _ => String.eqb t sel
      end
  end.

(** [soup.select_one(selector)]: the first match in document order. *)
Definition select_one (s : soup) (sel : string) : option node :=
  head (List.filter (css_matches sel) (flat_map elements s)).

End bs4.

(** ** scraper.py *)

Module scraper.

(** What [session.get] hands back: status line, content type header and
    the body as [html.parser] reads it. *)
Record Response : Type := mkResponse {
  status_code : Z;
  reason : string;
  content_type : option string;
  content : bs4.soup
}.

(** A [<meta>] element as the browser reports its attributes. *)
Record MetaElement : Type := mkMetaElement {
  me_name : option string;
  me_property : option string;
  me_content : option string
}.

(** The rendered page a loaded driver answers queries about. *)
Record BrowserPage : Type := mkBrowserPage {
  bp_title : string;
  (** [find_element(By.CSS_SELECTOR, sel).text]; [None] when the lookup
      raises. *)
  bp_css_text : string → option string;
  (** [find_element(By.TAG_NAME, "body").text] *)
  bp_body_text : outcome string;
  (** [find_elements(By.TAG_NAME, "meta")] and, per element, the reading
      of its attributes; the lookup and each reading may raise *)
  bp_metas : outcome (list (outcome MetaElement));
  (** the [a] elements with the reading of [href], likewise *)
  bp_links : outcome (list (outcome (option string)));
  (** the [img] elements with the reading of [src], likewise *)
  bp_images : outcome (list (outcome (option string)))
}.

(** How the [try] block of [_setup_selenium] ends: through, with an
    exception before [self.driver] is assigned, or with one after it (from
    [set_page_load_timeout]). *)
Inductive ChromeStart : Type :=
| Started
| NotStarted (e : string)
| StartedThenRaised (e : string).

(** The outside world of the extractor. *)
Record Net : Type := mkNet {
  (** [session.get(url, timeout=DEFAULT_TIMEOUT)] *)
  http_get : string → outcome Response;
  (** installing the driver and starting Chrome, by [headless] *)
  chrome_start : bool → ChromeStart;
  (** [driver.get(url)] followed by the wait for [body] *)
  browser_get : string → outcome BrowserPage
}.

(** The attributes of a [WebScraper]; the driver is a handle. *)
Record WebScraper : Type := mkWebScraper {
  use_selenium : bool;
  headless : bool;
  driver : option unit
}.

(** [_setup_selenium]: any failure is logged and turns the flag off. *)
Definition _setup_selenium (net : Net) (self : WebScraper) : WebScraper :=
  match chrome_start net (headless self) with
  | Started => mkWebScraper (use_selenium self) (headless self) (Some ())
  | NotStarted _ => mkWebScraper false (headless self) (driver self)
  | StartedThenRaised _ => mkWebScraper false (headless self) (Some ())
  end.

(** [WebScraper(use_selenium, headless)] *)
Definition __init__ (net : Net) (use_sel hl : bool) : WebScraper :=
  let self := mkWebScraper use_sel hl None in
  if use_sel then _setup_selenium net self else self.

(** [response.raise_for_status()]. The text names the URL that was
    requested; requests prints the response's own URL, which differs after
    a redirect. *)
Definition raise_for_status (url : string) (r : Response) : outcome unit :=
  if ((400 <=? status_code r) && (status_code r <? 500))%Z then
    Raised (pretty (status_code r) +:+ " Client Error: " +:+ reason r
              +:+ " for url: " +:+ url)
  else if ((500 <=? status_code r) && (status_code r <? 600))%Z then
    Raised (pretty (status_code r) +:+ " Server Error: " +:+ reason r
              +:+ " for url: " +:+ url)
  else Normal ().

Definition content_selectors : list string :=
  ["main"; "article"; ".content"; ".main-content";
   "#content"; "#main"; ".post-content"; ".entry-content"].

(** The [for selector in content_selectors] loop: the first selector with
    a match returns; a tag is always truthy. *)
Fixpoint first_region (s : bs4.soup) (sels : list string) : option bs4.node :=
  match sels with
  | [] => None
  | sel :: rest =>
      match bs4.select_one s sel with
      | Some element => Some element
      | None => first_region s rest
      end
  end.

(** [_extract_content(soup)]: returns the text and the soup as the call
    leaves it (script and style elements removed in place). *)
Definition _extract_content (s : bs4.soup) : string * bs4.soup :=
  let s' := bs4.decompose_all ["script"; "style"] s in
  match first_region s' content_selectors with
  | Some element => (bs4.get_text_sep (bs4.tag_children element), s')
  | None => (bs4.get_text_sep s', s')
  end.

(** The [for meta in meta_tags] loop of [_extract_metadata]. *)
Definition add_meta (md : gmap string MetaVal) (meta : bs4.node)
  : gmap string MetaVal :=
  let name := PyStr.or_else (bs4.get meta "name") (bs4.get meta "property") in
  let cont := bs4.get meta "content" in
  match name, cont with
  | Some n, Some c =>
      if PyStr.truthy n && PyStr.truthy c then <[n := MStr c]> md else md
  | _, _ => md
  end.

(** [find_all(tag, attr=True)] followed by [x[attr]] on the first ten. *)
Definition first_ten_attr (s : bs4.soup) (t attr : string) : list string :=
  omap (λ n, bs4.get n attr)
    (take 10 (List.filter (λ n, bool_decide (is_Some (bs4.get n attr)))
                (bs4.find_all s t))).

(** [_extract_metadata(soup, response)] *)
Definition _extract_metadata (s : bs4.soup) (resp : Response)
  : gmap string MetaVal :=
  let md := foldl add_meta ∅ (bs4.find_all s "meta") in
  let md := <["links" := MList (first_ten_attr s "a" "href")]> md in
  let md := <["images" := MList (first_ten_attr s "img" "src")]> md in
  let md := <["status_code" := MInt (status_code resp)]> md in
  <["content_type" := MStr (default "" (content_type resp))]> md.

(** [scrape_with_requests(url)]: every exception of the [try] block ends
    in the error dictionary. *)
Definition scrape_with_requests (net : Net) (url : string) : ScrapeResult :=
  match http_get net url with
  | Raised e => error_result url "requests" e
  | Normal response =>
      match raise_for_status url response with
      | Raised e => error_result url "requests" e
      | Normal _ =>
          let soup := content response in
          let title_text :=
            match bs4.find soup "title" with
            | Some title => PyStr.strip (bs4.get_text (bs4.tag_children title))
            | None => ""
            end in
          let '(cont, soup) := _extract_content soup in
          let metadata := _extract_metadata soup response in
          mkScrapeResult url title_text cont metadata "requests" "success"
      end
  end.

(** [_extract_content_selenium()] *)
Fixpoint first_region_selenium (p : BrowserPage) (sels : list string)
  : option string :=
  match sels with
  | [] => None
  | sel :: rest =>
      match bp_css_text p sel with
      | Some text => Some (PyStr.strip text)
      | None => first_region_selenium p rest
      end
  end.
Definition _extract_content_selenium (p : BrowserPage) : string :=
  match first_region_selenium p content_selectors with
  | Some text => text
  | None =>
      match bp_body_text p with
      | Normal text => PyStr.strip text
      | Raised _ => ""
      end
  end.

(** The body of the [for meta in meta_elements] loop. *)
Definition add_meta_selenium (md : gmap string MetaVal) (meta : MetaElement)
  : gmap string MetaVal :=
  match PyStr.or_else (me_name meta) (me_property meta), me_content meta with
  | Some n, Some c =>
      if PyStr.truthy n && PyStr.truthy c then <[n := MStr c]> md else md
  | _, _ => md
  end.
(** The [for meta in meta_elements] loop: it stops at the first element
    whose attributes cannot be read, with the entries made so far. *)
Fixpoint add_metas_selenium (md : gmap string MetaVal)
    (metas : list (outcome MetaElement)) : gmap string MetaVal * option string :=
  match metas with
  | [] => (md, None)
  | Normal meta :: rest => add_metas_selenium (add_meta_selenium md meta) rest
  | Raised e :: _ => (md, Some e)
  end.

(** [[x.get_attribute(a) for x in xs if x.get_attribute(a)]]: the truthy
    attributes, or the first exception of a reading. *)
Fixpoint truthy_attrs_go (l : list (outcome (option string))) : outcome (list string) :=
  match l with
  | [] => Normal []
  | Raised e :: _ => Raised e
  | Normal o :: rest =>
      match truthy_attrs_go rest with
      | Raised e => Raised e
      | Normal t => Normal (if PyStr.otruthy o then default "" o :: t else t)
      end
  end.
Definition truthy_attrs (l : list (outcome (option string))) : outcome (list string) :=
  truthy_attrs_go (take 10 l).

(** [_extract_metadata_selenium()]: one [try] around everything; whatever
    raises, the dictionary built so far is returned. *)
Definition _extract_metadata_selenium (p : BrowserPage) : gmap string MetaVal :=
  match bp_metas p with
  | Raised _ => ∅
  | Normal metas =>
      match add_metas_selenium ∅ metas with
      | (md, Some _) => md
      | (md, None) =>
          match bp_links p with
          | Raised _ => md
          | Normal links =>
              match truthy_attrs links with
              | Raised _ => md
              | Normal hrefs =>
                  let md := <["links" := MList hrefs]> md in
                  match bp_images p with
                  | Raised _ => md
                  | Normal images =>
                      match truthy_attrs images with
                      | Raised _ => md
                      | Normal srcs => <["images" := MList srcs]> md
                      end
                  end
              end
          end
      end
  end.

(** [scrape_with_selenium(url)] *)
Definition scrape_with_selenium (net : Net) (self : WebScraper) (url : string)
  : ScrapeResult :=
  match driver self with
  | None => error_result url "selenium" "Selenium not initialized"
  | Some _ =>
      match browser_get net url with
      | Raised e => error_result url "selenium" e
      | Normal page =>
          mkScrapeResult url (bp_title page) (_extract_content_selenium page)
            (_extract_metadata_selenium page) "selenium" "success"
      end
  end.

(** [scrape(url)] *)
Definition scrape (net : Net) (self : WebScraper) (url : string) : ScrapeResult :=
  if use_selenium self then scrape_with_selenium net self url
  else scrape_with_requests net url.

(** [close()] *)
Definition close (self : WebScraper) : WebScraper :=
  mkWebScraper (use_selenium self) (headless self) None.

(** [ScrapingManager]: the flag and the dictionary of scrapers by URL. *)
Record ScrapingManager : Type := mkScrapingManager {
  sm_use_selenium : bool;
  scrapers : gmap string WebScraper
}.

Definition ScrapingManager__init__ (use_sel : bool) : ScrapingManager :=
  mkScrapingManager use_sel ∅.

(** [get_scraper(url)]: creates the scraper on first use. *)
Definition get_scraper (net : Net) (self : ScrapingManager) (url : string)
  : WebScraper * ScrapingManager :=
  match scrapers self !! url with
  | Some s => (s, self)
  | None =>
      let s := __init__ net (sm_use_selenium self) true in
      (s, mkScrapingManager (sm_use_selenium self) (<[url := s]> (scrapers self)))
  end.

End scraper.

(** ** scheduler.py *)

Module scheduler.
Import database scraper.

(** *** Celery values the module builds or reads *)

(** [crontab(...)]: the five fields, each a literal or ["*"]. *)
Record crontab : Type := mkCrontab {
  minute : string;
  hour : string;
  day_of_week : string;
  day_of_month : string;
  month_of_year : string
}.

(** An entry of [celery_app.conf.beat_schedule]. *)
Record BeatEntry : Type := mkBeatEntry {
  be_task : string;
  be_schedule : crontab;
  be_args : string * bool;
  be_queue : string
}.

(** What [scrape_url_task] returns: the dictionary with ['success': True]
    or the one with ['success': False]. *)
Inductive SingleReturn : Type :=
| SingleOk (record_id : Z) (url : string) (result : ScrapeResult)
| SingleFailed (url : string) (error : string).

(** What [scrape_multiple_urls_task] returns. *)
Inductive BatchReturn : Type :=
| BatchOk (total_urls successful failed : nat) (results : list ScrapeResult)
| BatchFailed (error : string).

Definition batch_success (r : BatchReturn) : bool :=
  match r with BatchOk _ _ _ _ => true | BatchFailed _ => false end.

(** The value a result backend keeps for a task. *)
Inductive TaskValue : Type :=
| VSingle (r : SingleReturn)
| VBatch (r : BatchReturn)
| VException (msg : string)
| VNothing.

Record TaskMeta : Type := mkTaskMeta {
  tm_state : string;
  tm_result : TaskValue
}.

(** [AsyncResult.ready()]: the state is one of celery's READY_STATES. *)
Definition ready_states : list string := ["SUCCESS"; "FAILURE"; "REVOKED"].
Definition ready (m : TaskMeta) : bool :=
  bool_decide (tm_state m ∈ ready_states).

(** Values of the dictionary [get_task_status] returns. *)
Inductive PyVal : Type :=
| PStr (s : string)
| PBool (b : bool)
| PNone
| PValue (v : TaskValue).

(** *** The environment and the process state *)

Record Env : Type := mkEnv {
  net : Net;
  (** [crontab(minute=.., hour=.., day=.., month=.., day_of_week=..)] as
      celery answers the call [_schedule_cron] makes ([crontab] has no
      parameters [day] and [month], so celery answers with a [TypeError]) *)
  crontab_custom :
    option string → option string → option string → option string →
    option string → outcome crontab;
  (** the result backend, asked about a task id *)
  backend_meta : string → outcome TaskMeta;
  (** the interpreter's message when a [with] statement is given an object
      of a class without the context manager methods *)
  no_context_manager : string → string
}.

Record World : Type := mkWorld {
  db : Database;
  beat_schedule : gmap string BeatEntry;
  clock : Z
}.

Definition set_db (d : Database) (w : World) : World :=
  mkWorld d (beat_schedule w) (clock w).
Definition set_beat (b : gmap string BeatEntry) (w : World) : World :=
  mkWorld (db w) b (clock w).
Definition advance (seconds : nat) (w : World) : World :=
  mkWorld (db w) (beat_schedule w) (clock w + Z.of_nat seconds).

(** *** Python code that may raise, over the process state *)

Definition Py (A : Type) : Type := World → outcome A * World.

Definition ret {A} (a : A) : Py A := λ w, (Normal a, w).
Definition raise {A} (msg : string) : Py A := λ w, (Raised msg, w).
Definition bind {A B} (c : Py A) (k : A → Py B) : Py B :=
  λ w, match c w with
       | (Normal a, w') => k a w'
       | (Raised e, w') => (Raised e, w')
       end.
Definition try_except {A} (c : Py A) (handler : string → Py A) : Py A :=
  λ w, match c w with
       | (Normal a, w') => (Normal a, w')
       | (Raised e, w') => handler e w'
       end.
Definition lift {A} (o : outcome A) : Py A := λ w, (o, w).

#[global] Instance Py_ret : MRet Py := @ret.
#[global] Instance Py_bind : MBind Py := λ A B k c, bind c k.

Fixpoint for_each {A} (l : list A) (body : A → Py unit) : Py unit :=
  match l with
  | [] => ret ()
  | x :: rest => body x;; for_each rest body
  end.

(** A class as the [with] statement sees it: its name and the two special
    methods, when it defines them. *)
Record PyClass (O : Type) : Type := mkPyClass {
  cls_name : string;
  cls__enter__ : option (O → O);
  cls__exit__ : option (O → O)
}.
Arguments mkPyClass {O}.
Arguments cls_name {O}.
Arguments cls__enter__ {O}.
Arguments cls__exit__ {O}.

Definition ScrapingManager_class : PyClass ScrapingManager :=
  mkPyClass "ScrapingManager" None None.

(** [with obj as x: body]: the special methods are looked up on the class
    before anything of the body runs, and a class without them makes the
    statement raise. [__exit__] acts on the object only and lets an
    exception of the body through. *)
Definition with_stmt {O A} (env : Env) (cls : PyClass O) (obj : O)
    (body : O → Py A) : Py A :=
  match cls__enter__ cls, cls__exit__ cls with
  | Some enter, Some _ => body (enter obj)
  | _, _ => raise (no_context_manager env (cls_name cls))
  end.

(** *** [DatabaseManager] calls, on the process state *)

Definition db_insert_scraped_data (data : ScrapeResult) : Py Z :=
  λ w, let '(rid, d) := insert_scraped_data (clock w) data (db w) in
       (Normal rid, set_db d w).
Definition db_add_scraping_job (url schedule : string) : Py Z :=
  λ w, let '(jid, d) := add_scraping_job (clock w) url schedule (db w) in
       (Normal jid, set_db d w).
Definition db_update_job_status (jid : Z) (status : string)
    (last_run : option Z) : Py unit :=
  λ w, (Normal (), set_db (update_job_status jid status last_run (db w)) w).

(** *** The two tasks *)

Definition max_retries : nat := 3.

(** The [try] block of [scrape_url_task]. *)
Definition scrape_url_try (env : Env) (url : string) (use_sel : bool)
  : Py SingleReturn :=
  result ← with_stmt env ScrapingManager_class (ScrapingManager__init__ use_sel)
              (λ scraping_manager,
                 let '(scraper, _) := get_scraper (net env) scraping_manager url in
                 ret (scrape (net env) scraper url));
  record_id ← db_insert_scraped_data result;
  ret (SingleOk record_id url result).

(** How one execution of a task ends for the worker. *)
Inductive TaskExit : Type :=
| Returned (r : SingleReturn)
| RetryIn (countdown : nat) (exc : string)
| Failure (exc : string).

(** [self.retry(countdown=.., exc=..)] at [self.request.retries = retries]:
    celery re-sends the task unless the next count exceeds [max_retries],
    in which case [exc] is raised. *)
Definition self_retry (retries countdown : nat) (exc : string) : TaskExit :=
  if max_retries <? retries + 1 then Failure exc else RetryIn countdown exc.

(** One execution of [scrape_url_task] with [self.request.retries = retries]. *)
Definition scrape_url_task (env : Env) (retries : nat) (url : string)
    (use_sel : bool) (w : World) : TaskExit * World :=
  match scrape_url_try env url use_sel w with
  | (Normal r, w') => (Returned r, w')
  | (Raised exc, w') =>
      if retries <? max_retries then
        (self_retry retries (60 * 2 ^ retries) exc, w')
      else
        match db_insert_scraped_data (error_result url "celery_task" exc) w' with
        | (Normal _, w'') => (Returned (SingleFailed url exc), w'')
        | (Raised e, w'') => (Failure e, w'')
        end
  end.

(** The worker: executes the task, and on a retry executes it again with
    the count incremented once the countdown has passed. The list holds
    the countdowns in order; [None] means the fuel ran out. *)
Fixpoint worker_run (env : Env) (fuel retries : nat) (url : string)
    (use_sel : bool) (w : World)
  : list nat * option (outcome SingleReturn) * World :=
  match fuel with
  | O => ([], None, w)
  | S fuel' =>
      match scrape_url_task env retries url use_sel w with
      | (Returned r, w') => ([], Some (Normal r), w')
      | (Failure e, w') => ([], Some (Raised e), w')
      | (RetryIn c _, w') =>
          let '(cs, r, w'') :=
            worker_run env fuel' (S retries) url use_sel (advance c w') in
          (c :: cs, r, w'')
      end
  end.

(** The body of [for url in urls] in [scrape_multiple_urls_task]. The list
    [results] is appended to before the insert, so the handler sees the
    longer list. *)
Definition batch_iteration (env : Env) (url : string)
    (st : ScrapingManager * list ScrapeResult)
  : Py (ScrapingManager * list ScrapeResult) :=
  λ w,
    let '(scraper, mgr) := get_scraper (net env) (fst st) url in
    let result := scrape (net env) scraper url in
    let results := (snd st ++ [result])%list in
    match db_insert_scraped_data result w with
    | (Normal _, w') => (Normal (mgr, results), w')
    | (Raised e, w') =>
        let error := error_result url "batch_task" e in
        (db_insert_scraped_data error;; ret (mgr, (results ++ [error])%list)) w'
    end.

Fixpoint batch_loop (env : Env) (urls : list string)
    (st : ScrapingManager * list ScrapeResult)
  : Py (ScrapingManager * list ScrapeResult) :=
  match urls with
  | [] => ret st
  | url :: rest =>
      st' ← batch_iteration env url st; batch_loop env rest st'
  end.

Definition is_success (r : ScrapeResult) : bool :=
  String.eqb (r_status r) "success".

(** The dictionary returned after the loop. *)
Definition batch_summary (urls : list string) (results : list ScrapeResult)
  : BatchReturn :=
  BatchOk (length urls)
    (length (List.filter is_success results))
    (length (List.filter (λ r, negb (is_success r)) results))
    results.

(** [scrape_multiple_urls_task(urls, use_selenium)] *)
Definition scrape_multiple_urls_task (env : Env) (urls : list string)
    (use_sel : bool) : Py BatchReturn :=
  try_except
    (results ← with_stmt env ScrapingManager_class
                  (ScrapingManager__init__ use_sel)
                  (λ scraping_manager,
                     st ← batch_loop env urls (scraping_manager, []);
                     ret (snd st));
     ret (batch_summary urls results))
    (λ e, ret (BatchFailed e)).

(** *** [ScrapingScheduler] *)

Definition beat_set (key : string) (e : BeatEntry) : Py unit :=
  λ w, (Normal (), set_beat (<[key := e]> (beat_schedule w)) w).

Definition entry (s : crontab) (url : string) (use_sel : bool) : BeatEntry :=
  mkBeatEntry "scheduler.scrape_url_task" s (url, use_sel) "scraping".

(** [crontab(minute=0)], [crontab(hour=0, minute=0)] and
    [crontab(day_of_week=0, hour=0, minute=0)]; fields not given are ["*"]. *)
Definition crontab_hourly : crontab := mkCrontab "0" "*" "*" "*" "*".
Definition crontab_daily : crontab := mkCrontab "0" "0" "*" "*" "*".
Definition crontab_weekly : crontab := mkCrontab "0" "0" "0" "*" "*".

Definition _schedule_hourly (url : string) (job_id : Z) (use_sel : bool)
  : Py unit :=
  beat_set ("scrape_hourly_" +:+ pretty job_id) (entry crontab_hourly url use_sel).
Definition _schedule_daily (url : string) (job_id : Z) (use_sel : bool)
  : Py unit :=
  beat_set ("scrape_daily_" +:+ pretty job_id) (entry crontab_daily url use_sel).
Definition _schedule_weekly (url : string) (job_id : Z) (use_sel : bool)
  : Py unit :=
  beat_set ("scrape_weekly_" +:+ pretty job_id) (entry crontab_weekly url use_sel).

(** [x if x != '*' else None] *)
Definition unless_star (x : string) : option string :=
  if String.eqb x "*" then None else Some x.

Definition cron_parts (cron_schedule : string) : list string :=
  PyStr.split "," (PyStr.replace cron_schedule "cron:" "").

Definition _schedule_cron (env : Env) (url : string) (job_id : Z)
    (cron_schedule : string) (use_sel : bool) : Py unit :=
  try_except
    (if length (cron_parts cron_schedule) =? 5 then
       match cron_parts cron_schedule with
       | [mi; ho; da; mo; dw] =>
           s ← lift (crontab_custom env (unless_star mi) (unless_star ho)
                        (unless_star da) (unless_star mo) (unless_star dw));
           beat_set ("scrape_cron_" +:+ pretty job_id) (entry s url use_sel)
       | _ => raise "not enough values to unpack"
       end
     else
       raise "Invalid cron format. Use: cron:minute,hour,day,month,day_of_week")
    (λ _, _schedule_hourly url job_id use_sel).

Definition schedule_url (env : Env) (url schedule : string) (use_sel : bool)
  : Py Z :=
  try_except
    (job_id ← db_add_scraping_job url schedule;
     (if String.eqb schedule "hourly" then _schedule_hourly url job_id use_sel
      else if String.eqb schedule "daily" then _schedule_daily url job_id use_sel
      else if String.eqb schedule "weekly" then _schedule_weekly url job_id use_sel
      else if PyStr.startswith schedule "cron:"
           then _schedule_cron env url job_id schedule use_sel
      else _schedule_hourly url job_id use_sel);;
     ret job_id)
    (λ e, raise e).

Definition schedule_keys (job_id : Z) : list string :=
  ["scrape_hourly_" +:+ pretty job_id;
   "scrape_daily_" +:+ pretty job_id;
   "scrape_weekly_" +:+ pretty job_id;
   "scrape_cron_" +:+ pretty job_id].

(** [if key in beat_schedule: del beat_schedule[key]] *)
Definition del_if_present (key : string) : Py unit :=
  λ w, match beat_schedule w !! key with
       | Some _ => (Normal (), set_beat (delete key (beat_schedule w)) w)
       | None => (Normal (), w)
       end.

Definition remove_scheduled_job (job_id : Z) : Py unit :=
  try_except
    (db_update_job_status job_id "inactive" None;;
     for_each (schedule_keys job_id) del_if_present)
    (λ e, raise e).

(** [get_scheduled_jobs()] *)
Definition get_scheduled_jobs : Py (list JobRow) :=
  λ w, (Normal (get_active_jobs (db w)), w).

(** [get_task_status(task_id)]: the reads of the [AsyncResult] ([status],
    [ready()], [result]) all see the backend's one answer for the task; a
    backend that cannot be read raises at the first of them. *)
Definition get_task_status (env : Env) (task_id : string) : gmap string PyVal :=
  match backend_meta env task_id with
  | Normal task_result =>
      <["task_id" := PStr task_id]>
      (<["status" := PStr (tm_state task_result)]>
      (<["result" := if ready task_result
                     then PValue (tm_result task_result) else PNone]>
      (<["ready" := PBool (ready task_result)]> ∅)))
  | Raised e =>
      <["task_id" := PStr task_id]>
      (<["status" := PStr "error"]>
      (<["error" := PStr e]> ∅))
  end.

End scheduler.

(** ** A concrete environment, for evaluating the code *)

Module sample.
Import bs4 scraper scheduler.

(** A page with a title, a script, a sidebar and an article. *)
Definition page_a : soup :=
  [Elem "html" []
     [Elem "head" []
        [Elem "title" [] [Text " Page A "];
         Elem "meta" [("name", "author"); ("content", "someone")] [];
         Elem "script" [] [Text "track()"]];
      Elem "body" []
        [Elem "div" [("class", "nav content")] [Text " menu "];
         Elem "article" [] [Text " Hello "; Elem "b" [] [Text "world"]];
         Elem "a" [("href", "/next")] [Text "next"]]]].

(** A page without any of the content regions. *)
Definition page_plain : soup :=
  [Elem "html" []
     [Elem "body" []
        [Elem "p" [] [Text " one "];
         Elem "style" [] [Text "p {}"];
         Elem "p" [] [Text "two"]]]].

(** ["a"] and the example target answer with a page, ["plain"] with the
    plain page, everything else is unreachable; Chrome cannot be started. *)
Definition net0 : Net :=
  mkNet
    (λ url,
       if String.eqb url "a" || String.eqb url "https://example.test/page"
       then Normal (mkResponse 200 "OK" (Some "text/html") page_a)
       else if String.eqb url "plain"
       then Normal (mkResponse 200 "OK" None page_plain)
       else Raised "connection refused")
    (λ _, NotStarted "chromedriver not found")
    (λ _, Raised "no browser").

Definition env0 : Env :=
  mkEnv net0
    (λ mi ho da mo dw,
       match mi, ho, dw with
       | Some _, Some _, Some _ =>
           Raised "BaseSchedule.__init__() got an unexpected keyword argument 'day'"
       | _, _, _ =>
           Raised "Argument cronspec needs to be of any of the following types: int, str, or an iterable type. NoneType was given."
       end)
    (λ task_id,
       if String.eqb task_id "pending-task"
       then Normal (mkTaskMeta "PENDING" VNothing)
       else if String.eqb task_id "done-task"
       then Normal (mkTaskMeta "SUCCESS" (VSingle (SingleFailed "b" "boom")))
       else Raised "backend unreachable")
    (λ cls, "'" +:+ cls +:+ "' object does not support the context manager protocol").

(** An empty database and beat schedule at 2023-11-14 22:13:20 UTC. *)
Definition w0 : World := mkWorld database.empty ∅ 1700000000.

(** The same process after one hourly job was scheduled. *)
Definition w1 : World :=
  snd (schedule_url env0 "https://example.test/page" "hourly" false w0).

End sample.

(** ** Operations on the process state *)

Module ops.
Import database scraper scheduler.

(** Every entry point of the three modules that writes to the two tables
    or to the beat schedule. ([init_database] only creates missing tables
    and [export_to_csv] writes to its own history table.) *)
Inductive Operation : Type :=
| InsertScrapedData (data : ScrapeResult)
| AddScrapingJob (url schedule : string)
| UpdateJobStatus (job_id : Z) (status : string) (last_run : option Z)
| ScheduleUrl (url schedule : string) (use_sel : bool)
| RemoveScheduledJob (job_id : Z)
| ScrapeUrlTask (retries : nat) (url : string) (use_sel : bool)
| ScrapeMultipleUrlsTask (urls : list string) (use_sel : bool).

Definition perform (env : Env) (op : Operation) (w : World) : World :=
  match op with
  | InsertScrapedData data => snd (db_insert_scraped_data data w)
  | AddScrapingJob url schedule => snd (db_add_scraping_job url schedule w)
  | UpdateJobStatus job_id status last_run =>
      snd (db_update_job_status job_id status last_run w)
  | ScheduleUrl url schedule use_sel => snd (schedule_url env url schedule use_sel w)
  | RemoveScheduledJob job_id => snd (remove_scheduled_job job_id w)
  | ScrapeUrlTask retries url use_sel =>
      snd (scrape_url_task env retries url use_sel w)
  | ScrapeMultipleUrlsTask urls use_sel =>
      snd (scrape_multiple_urls_task env urls use_sel w)
  end.

(** The beat schedule once the four keys of a job are gone. *)
Definition without_keys (jid : Z) (b : gmap string BeatEntry)
  : gmap string BeatEntry :=
  delete ("scrape_cron_" +:+ pretty jid)
    (delete ("scrape_weekly_" +:+ pretty jid)
       (delete ("scrape_daily_" +:+ pretty jid)
          (delete ("scrape_hourly_" +:+ pretty jid) b))).

(** A row transformer that leaves everything but [status] and [last_run]. *)
Definition keeps_identity (f : JobRow → JobRow) : Prop :=
  ∀ r, job_id (f r) = job_id r ∧ job_url (f r) = job_url r
       ∧ job_schedule (f r) = job_schedule r
       ∧ job_created_at (f r) = job_created_at r
       ∧ job_next_run (f r) = job_next_run r.

End ops.

(** ** Notions of the specification *)

Module spec.

(** The next top-of-hour boundary strictly after [t] (seconds). *)
Definition next_top_of_hour (t : Z) : Z := ((t / 3600 + 1) * 3600)%Z.

(** A status that resolves a task: a success status, or one that begins
    with ["error:"]. *)
Definition resolved_status (s : string) : Prop :=
  s = "SUCCESS" ∨ s = "success" ∨ PyStr.startswith s "error:" = true.

(** A status record with all three fields. *)
Definition complete_record {V} (d : gmap string V) : Prop :=
  is_Some (d !! "status") ∧ is_Some (d !! "ready") ∧ is_Some (d !! "result").

End spec.

(** ** database.py, the reading side *)

Module database_reads.
Import database.

(** [LIMIT ? OFFSET ?] as SQLite reads the two numbers: a negative offset
    is no offset, a negative limit is no limit. *)
Definition limit_offset {A} (limit offset : Z) (rows : list A) : list A :=
  let rest := drop (Z.to_nat offset) rows in
  if (limit <? 0)%Z then rest else take (Z.to_nat limit) rest.

Definition scraped_desc (a b : ScrapedRow) : Prop :=
  (sd_scraped_at b ≤ sd_scraped_at a)%Z.
#[global] Instance scraped_desc_dec : RelDecision scraped_desc.
Proof. intros a b. unfold scraped_desc. apply _. Defined.

(** [get_scraped_data(limit=100, offset=0)]:
    [ORDER BY scraped_at DESC LIMIT ? OFFSET ?]. Binding a number that does
    not fit SQLite's INTEGER raises. *)
Definition get_scraped_data (limit offset : Z) (d : Database)
  : outcome (list ScrapedRow) :=
  if sqlite_int limit && sqlite_int offset
  then Normal (limit_offset limit offset (merge_sort scraped_desc (scraped_data d)))
  else Raised overflow_error.

(** [dict(cursor.fetchall())] of a [SELECT key, COUNT( * ) ... GROUP BY key]:
    every key that occurs, with the number of rows that carry it. *)
Definition count_by {A} (key : A → string) (rows : list A) : gmap string nat :=
  foldr (λ r m, <[key r := S (default 0 (m !! key r))]> m) ∅ rows.

(** The sum of the values of such a dictionary. *)
Definition sum_counts (m : gmap string nat) : nat :=
  map_fold (λ _ n acc, n + acc) 0 m.

(** The dictionary [get_statistics()] returns. *)
Record Statistics : Type := mkStatistics {
  total_records : nat;
  status_counts : gmap string nat;
  source_counts : gmap string nat;
  active_jobs : nat
}.

Definition get_statistics (d : Database) : Statistics :=
  mkStatistics
    (length (scraped_data d))
    (count_by sd_status (scraped_data d))
    (count_by sd_source (scraped_data d))
    (length (List.filter (λ r, String.eqb (job_status r) "active")
               (scraping_jobs d))).

End database_reads.

(** ** scraper.py, [ScrapingManager.scrape_multiple] *)

Module scraping_manager.
Import scraper.

(** [scrape_multiple(urls)]: the results in the order of the URLs, and the
    manager with the scrapers it had to create. *)
Fixpoint scrape_multiple (net : Net) (self : ScrapingManager) (urls : list string)
  : list ScrapeResult * ScrapingManager :=
  match urls with
  | [] => ([], self)
  | url :: rest =>
      let '(scraper, self) := get_scraper net self url in
      let result := scrape net scraper url in
      let '(results, self) := scrape_multiple net self rest in
      (result :: results, self)
  end.

End scraping_manager.

(** ** main.py *)

Module main.
Import database scraper scheduler.





(** [schedule_scraping(url, schedule, use_selenium=False)] *)
Definition schedule_scraping (env : Env) (url schedule : string) (use_sel : bool)
  : Py Z :=
  try_except (schedule_url env url schedule use_sel) (λ e, raise e).

(** The [schedule] command of [main()]: only [--schedule cron] together
    with a non-empty [--cron-expr] makes a ["cron:"] spec. *)
Definition schedule_type (schedule : string) (cron_expr : option string) : string :=
  if String.eqb schedule "cron" && PyStr.otruthy cron_expr
  then "cron:" +:+ default "" cron_expr
  else schedule.
Definition schedule_command (env : Env) (url schedule : string)
    (cron_expr : option string) (use_sel : bool) : Py Z :=
  schedule_scraping env url (schedule_type schedule cron_expr) use_sel.

End main.

(** ** A second environment, with a working browser *)

Module sample_browser.
Import scraper.

(** Chrome starts; every page renders with a title and a [main] region. *)
Definition net1 : Net :=
  mkNet
    (λ _, Raised "offline")
    (λ _, Started)
    (λ url,
       Normal (mkBrowserPage "Rendered"
                 (λ sel, if String.eqb sel "main" then Some " shown " else None)
                 (Normal "whole body")
                 (Normal [Normal (mkMetaElement (Some "author") None (Some "x"))])
                 (Normal [Normal (Some "/a"); Normal None])
                 (Normal []))).

(** A page whose second link goes stale while its [href] is read. *)
Definition page_stale : BrowserPage :=
  mkBrowserPage "Stale" (λ _, None) (Normal "text")
    (Normal [Normal (mkMetaElement (Some "author") None (Some "x"))])
    (Normal [Normal (Some "/a"); Raised "stale element reference"])
    (Normal [Normal (Some "/i.png")]).

End sample_browser.

(** ** A store with records in it *)

Module sample_store.
Import database.

(** Two records, the older one a success and the newer one a failure. *)
Definition store2 : Database :=
  mkDatabase
    [mkScrapedRow 1 "a" "Page A" "Hello world" ∅ 10 "requests" "success";
     mkScrapedRow 2 "b" "" "" ∅ 20 "requests" "error: connection refused"]
    2 [] 0.

End sample_store.

(** ** Notions for the properties of strings *)

Module text.

(** Whether a character occurs in a string. *)
Fixpoint occurs (c : Ascii.ascii) (s : string) : bool :=
  match s with
  | EmptyString => false
  | String c' s' => Ascii.eqb c' c || occurs c s'
  end.

End text.

(** ** Notions for the properties of the store *)

Module store.
Import database scheduler.

(** Row ids are pairwise distinct and none exceeds its table's counter. *)
Definition well_formed (d : Database) : Prop :=
  NoDup (map sd_id (scraped_data d))
  ∧ Forall (λ r, (sd_id r ≤ scraped_data_seq d)%Z) (scraped_data d)
  ∧ NoDup (map job_id (scraping_jobs d))
  ∧ Forall (λ r, (job_id r ≤ scraping_jobs_seq d)%Z) (scraping_jobs d).

(** The state after a list of operations, first to last. *)
Definition perform_all (env : Env) (ops : list ops.Operation) (w : World) : World :=
  foldl (λ w op, ops.perform env op w) w ops.

End store.

(** ** Shapes of the metadata dictionary of the scripted strategy *)

Module metadata_shape.
Import scraper.

(** Entries made from meta tags only. *)
Definition meta_only (md : gmap string MetaVal) : Prop :=
  ∀ k v, md !! k = Some v → ∃ c, v = MStr c ∧ c ≠ "" ∧ k ≠ "".

Definition address_list (v : MetaVal) : Prop :=
  ∃ l, v = MList l ∧ length l ≤ 10 ∧ Forall (λ a, a ≠ "") l.

(** What every dictionary the function can return looks like. *)
Definition selenium_shape (md : gmap string MetaVal) : Prop :=
  (∀ k v, md !! k = Some v →
     ((k = "links" ∨ k = "images") ∧ address_list v)
     ∨ ∃ c, v = MStr c ∧ c ≠ "" ∧ k ≠ "")
  ∧ ((∃ l, md !! "images" = Some (MList l)) → ∃ l', md !! "links" = Some (MList l')).

End metadata_shape.

(** * Properties *)

Import database scraper scheduler ops.

(** ** Retry policy of the single-target task *)

Section RetryPolicy.
Variable env : Env.

(** The [with] statement over a [ScrapingManager] raises before its body
    starts: the class has no [__enter__] and no [__exit__]. *)
Lemma with_ScrapingManager_raises {A} (mgr : ScrapingManager)
    (body : ScrapingManager → Py A) (w : World) :
  with_stmt env ScrapingManager_class mgr body w
  = (Raised (no_context_manager env "ScrapingManager"), w).
Proof. reflexivity. Qed.

Lemma scrape_url_try_raises (url : string) (use_sel : bool) (w : World) :
  scrape_url_try env url use_sel w
  = (Raised (no_context_manager env "ScrapingManager"), w).
Proof. reflexivity. Qed.

(** While retries remain, an execution ends in a retry whose countdown is
    [60 * 2 ^ retries], and writes nothing. *)
Lemma scrape_url_task_retry (retries : nat) (url : string) (use_sel : bool)
    (w : World) :
  retries < max_retries →
  scrape_url_task env retries url use_sel w
  = (RetryIn (60 * 2 ^ retries) (no_context_manager env "ScrapingManager"), w).
Proof.
  intros Hlt. unfold scrape_url_task. rewrite scrape_url_try_raises.
  unfold self_retry.
  destruct (Nat.ltb_spec retries max_retries) as [_|Hge]; [|lia].
  destruct (Nat.ltb_spec max_retries (retries + 1)) as [Hgt|_]; [lia|done].
Qed.

(** With the retries used up, an execution writes the error record and
    returns the failure dictionary. *)
Lemma scrape_url_task_exhausted (retries : nat) (url : string)
    (use_sel : bool) (w : World) :
  max_retries ≤ retries →
  scrape_url_task env retries url use_sel w
  = (Returned (SingleFailed url (no_context_manager env "ScrapingManager")),
     set_db (snd (insert_scraped_data (clock w)
                    (error_result url "celery_task"
                       (no_context_manager env "ScrapingManager")) (db w))) w).
Proof.
  intros Hge. unfold scrape_url_task. rewrite scrape_url_try_raises.
  destruct (Nat.ltb_spec retries max_retries) as [Hlt|_]; [lia|done].
Qed.

End RetryPolicy.

(** The sample run: three retries after 60, 120 and 240 seconds, then the
    failure dictionary. *)
Example worker_run_sample :
  fst (worker_run sample.env0 4 0 "a" false sample.w0)
  = ([60; 120; 240],
     Some (Normal (SingleFailed "a"
       "'ScrapingManager' object does not support the context manager protocol"))).
Proof. vm_compute. reflexivity. Qed.

Lemma startswith_error (msg : string) :
  PyStr.startswith ("error: " +:+ msg) "error:" = true.
Proof. reflexivity. Qed.


(** ** The batch task *)

Lemma scrape_with_requests_url (n : Net) (url : string) :
  r_url (scrape_with_requests n url) = url.
Proof.
  unfold scrape_with_requests.
  destruct (http_get n url) as [resp|e]; [|reflexivity].
  destruct (raise_for_status url resp); [|reflexivity].
  destruct (_extract_content (content resp)). reflexivity.
Qed.

Lemma scrape_url (n : Net) (s : WebScraper) (url : string) :
  r_url (scrape n s url) = url.
Proof.
  unfold scrape, scrape_with_selenium.
  destruct (use_selenium s); [|apply scrape_with_requests_url].
  destruct (driver s); [|reflexivity].
  destruct (browser_get n url); reflexivity.
Qed.

(** A failed fetch does not raise: it comes back as a result whose status
    begins with ["error:"]. *)
Lemma scrape_failure_is_a_result (n : Net) (url e : string) :
  http_get n url = Raised e →
  scrape_with_requests n url = error_result url "requests" e.
Proof. intros H. unfold scrape_with_requests. rewrite H. reflexivity. Qed.

Section BatchLoop.
Variable env : Env.

(** One iteration appends one result for its URL and inserts one row with
    that result's URL and status. *)
Lemma batch_iteration_spec (url : string) (mgr : ScrapingManager)
    (results : list ScrapeResult) (w : World) :
  ∃ mgr' r row,
    batch_iteration env url (mgr, results) w
    = (Normal (mgr', (results ++ [r])%list),
       set_db (mkDatabase (scraped_data (db w) ++ [row])%list (sd_id row)
                 (scraping_jobs (db w)) (scraping_jobs_seq (db w))) w)
    ∧ r_url r = url ∧ sd_url row = url ∧ sd_status row = r_status r.
Proof.
  unfold batch_iteration. cbn [fst snd].
  destruct (get_scraper (net env) mgr url) as [s mgr'].
  exists mgr', (scrape (net env) s url),
    (row_of ((scraped_data_seq (db w) + 1)%Z) (clock w) (scrape (net env) s url)).
  cbn. split; [reflexivity|]. split; [apply scrape_url|].
  split; [apply scrape_url|reflexivity].
Qed.

(** The loop never raises: it yields one result and one row per URL, in
    order, and leaves the job table and the beat schedule alone. *)
Lemma batch_loop_spec (urls : list string) :
  ∀ (mgr : ScrapingManager) (results : list ScrapeResult) (w : World),
  ∃ mgr' new rows w',
    batch_loop env urls (mgr, results) w = (Normal (mgr', (results ++ new)%list), w')
    ∧ map r_url new = urls
    ∧ scraped_data (db w') = (scraped_data (db w) ++ rows)%list
    ∧ map sd_url rows = urls
    ∧ map sd_status rows = map r_status new
    ∧ scraping_jobs (db w') = scraping_jobs (db w)
    ∧ beat_schedule w' = beat_schedule w.
Proof.
  induction urls as [|url rest IH]; intros mgr results w.
  - exists mgr, [], [], w. cbn. rewrite !app_nil_r. done.
  - destruct (batch_iteration_spec url mgr results w)
      as (mgr1 & r & row & Hit & Hr & Hrow & Hst).
    destruct (IH mgr1 (results ++ [r])%list
                (set_db (mkDatabase (scraped_data (db w) ++ [row])%list (sd_id row)
                           (scraping_jobs (db w)) (scraping_jobs_seq (db w))) w))
      as (mgr' & new & rows & w' & Hloop & Hurls & Hdb & Hrows & Hsts & Hjobs & Hbeat).
    exists mgr', (r :: new), (row :: rows), w'.
    cbn [batch_loop]. unfold mbind, Py_bind, bind. rewrite Hit.
    change (batch_loop env rest (mgr1, (results ++ [r])%list)
              (set_db (mkDatabase (scraped_data (db w) ++ [row])%list (sd_id row)
                         (scraping_jobs (db w)) (scraping_jobs_seq (db w))) w)
            = (Normal (mgr', (results ++ r :: new)%list), w')
            ∧ map r_url (r :: new) = url :: rest
            ∧ scraped_data (db w') = (scraped_data (db w) ++ row :: rows)%list
            ∧ map sd_url (row :: rows) = url :: rest
            ∧ map sd_status (row :: rows) = map r_status (r :: new)
            ∧ scraping_jobs (db w') = scraping_jobs (db w)
            ∧ beat_schedule w' = beat_schedule w).
    rewrite Hloop, <- !app_assoc. cbn in *.
    rewrite Hdb, <- app_assoc. cbn.
    repeat split; try congruence.
Qed.

End BatchLoop.

(** The counts of the summary add up to the number of results, and nothing
    but the results' statuses enters them. *)
Lemma summary_counts (results : list ScrapeResult) :
  length (List.filter is_success results)
  + length (List.filter (λ r, negb (is_success r)) results)
  = length results.
Proof.
  induction results as [|r rs IH]; [reflexivity|].
  cbn. destruct (is_success r); cbn; lia.
Qed.

Lemma no_success_counts (results : list ScrapeResult) :
  Forall (λ r, r_status r ≠ "success") results →
  List.filter is_success results = []
  ∧ List.filter (λ r, negb (is_success r)) results = results.
Proof.
  induction 1 as [|r rs Hr _ [IH1 IH2]]; [done|].
  assert (E : is_success r = false)
    by (unfold is_success; apply String.eqb_neq; exact Hr).
  cbn [List.filter]. rewrite E. cbn [negb]. rewrite IH1, IH2. done.
Qed.

(** The whole task never reaches its loop: the [with] statement raises, the
    outer handler turns that into the failure dictionary, and nothing is
    written. *)
Lemma scrape_multiple_urls_task_aborts (env : Env) (urls : list string)
    (use_sel : bool) (w : World) :
  scrape_multiple_urls_task env urls use_sel w
  = (Normal (BatchFailed (no_context_manager env "ScrapingManager")), w).
Proof. reflexivity. Qed.

(** C4, evaluated. On the batch [["a"; "b"]], where fetching ["a"] succeeds
    and fetching ["b"] fails, the task returns the failure dictionary and
    leaves the store as it was: no aggregate with one success and one
    failure, and no records. *)
Theorem batch_task_two_targets :
  r_status (scrape sample.net0 (__init__ sample.net0 false true) "a") = "success"
  ∧ r_status (scrape sample.net0 (__init__ sample.net0 false true) "b")
    = "error: connection refused"
  ∧ scrape_multiple_urls_task sample.env0 ["a"; "b"] false sample.w0
    = (Normal (BatchFailed
         "'ScrapingManager' object does not support the context manager protocol"),
       sample.w0)
  ∧ scraped_data (db sample.w0) = [].
Proof. repeat split; vm_compute; reflexivity. Qed.

(** The loop on its own, started on the same batch, does what the task
    never gets to: two results, two rows, one success and one failure. *)
Lemma batch_loop_two_targets :
  ∃ mgr results w',
    batch_loop sample.env0 ["a"; "b"] (ScrapingManager__init__ false, []) sample.w0
    = (Normal (mgr, results), w')
    ∧ map r_status results = ["success"; "error: connection refused"]
    ∧ map sd_url (scraped_data (db w')) = ["a"; "b"]
    ∧ (∃ rs, batch_summary ["a"; "b"] results = BatchOk 2 1 1 rs).
Proof.
  eexists _, _, _. split; [vm_compute; reflexivity|].
  repeat split; try (vm_compute; reflexivity).
  eexists. vm_compute. reflexivity.
Qed.

(** The per-target loop on its own always completes, with one result per
    URL, and the dictionary built after it has [success = True] whatever
    the statuses are: when no target succeeded it still reports success,
    with [successful = 0] and [failed] equal to the number of URLs. *)
Lemma batch_success_reflects_completion (env : Env) (urls : list string)
    (mgr : ScrapingManager) (w : World) :
  ∃ mgr' results w',
    batch_loop env urls (mgr, []) w = (Normal (mgr', results), w')
    ∧ length results = length urls
    ∧ batch_success (batch_summary urls results) = true
    ∧ (Forall (λ r, r_status r ≠ "success") results →
       batch_summary urls results = BatchOk (length urls) 0 (length urls) results).
Proof.
  destruct (batch_loop_spec env urls mgr [] w)
    as (mgr' & new & rows & w' & Hloop & Hurls & _).
  exists mgr', new, w'. cbn in Hloop.
  assert (Hlen : length new = length urls)
    by (rewrite <- Hurls, length_map; reflexivity).
  repeat split; [exact Hloop|exact Hlen|].
  intros Hall. destruct (no_success_counts new Hall) as [H1 H2].
  unfold batch_summary. rewrite H1, H2, Hlen. reflexivity.
Qed.


(** ** Scheduling a job *)

Section Scheduling.
Variable env : Env.

(** Registering the hourly trigger touches the beat schedule only. *)
Lemma _schedule_hourly_eq (url : string) (jid : Z) (use_sel : bool) (w : World) :
  _schedule_hourly url jid use_sel w
  = (Normal (),
     set_beat (<["scrape_hourly_" +:+ pretty jid := entry crontab_hourly url use_sel]>
                 (beat_schedule w)) w).
Proof. reflexivity. Qed.

(** What [schedule_url] does for the cadence ['hourly']. *)
Lemma schedule_url_hourly (url : string) (use_sel : bool) (w : World) :
  schedule_url env url "hourly" use_sel w
  = (Normal ((scraping_jobs_seq (db w) + 1)%Z),
     mkWorld
       (snd (add_scraping_job (clock w) url "hourly" (db w)))
       (<["scrape_hourly_" +:+ pretty ((scraping_jobs_seq (db w) + 1)%Z)
          := entry crontab_hourly url use_sel]> (beat_schedule w))
       (clock w)).
Proof. reflexivity. Qed.

(** A spec that starts with ["cron:"] is none of the named cadences. *)
Lemma cron_prefix_not_named (schedule : string) :
  PyStr.startswith schedule "cron:" = true →
  String.eqb schedule "hourly" = false
  ∧ String.eqb schedule "daily" = false
  ∧ String.eqb schedule "weekly" = false.
Proof.
  intros H. repeat split; apply String.eqb_neq; intros ->; discriminate H.
Qed.

(** With a number of fields other than five, [_schedule_cron] raises
    inside its own [try] and the handler registers the hourly trigger. *)
Lemma _schedule_cron_malformed (url : string) (jid : Z) (schedule : string)
    (use_sel : bool) (w : World) :
  length (cron_parts schedule) ≠ 5 →
  _schedule_cron env url jid schedule use_sel w
  = _schedule_hourly url jid use_sel w.
Proof.
  intros Hlen. unfold _schedule_cron, try_except.
  destruct (Nat.eqb_spec (length (cron_parts schedule)) 5) as [Heq|_]; [done|].
  reflexivity.
Qed.

End Scheduling.

(** C2, as the code has it. Scheduling with the cadence ['hourly'] returns
    the new job's id, appends one job row with the target, the spec, status
    ['active'], the creation time, and [last_run] and [next_run] both unset,
    and registers under [scrape_hourly_<id>] a trigger for the target whose
    schedule is [crontab(minute=0)]: minute [0], every other field any. *)
Theorem schedule_hourly_registers_trigger (env : Env) (url : string)
    (use_sel : bool) (w : World) :
  let jid := (scraping_jobs_seq (db w) + 1)%Z in
  ∃ w',
    schedule_url env url "hourly" use_sel w = (Normal jid, w')
    ∧ scraping_jobs (db w')
      = (scraping_jobs (db w)
           ++ [mkJobRow jid url "hourly" None None "active" (clock w)])%list
    ∧ beat_schedule w'
      = <["scrape_hourly_" +:+ pretty jid
          := mkBeatEntry "scheduler.scrape_url_task" (mkCrontab "0" "*" "*" "*" "*")
               (url, use_sel) "scraping"]> (beat_schedule w).
Proof.
  intros jid. eexists. rewrite schedule_url_hourly. split; [reflexivity|].
  split; reflexivity.
Qed.

(** C2, refuted as stated. Scheduling the example target hourly at
    22:13:20 persists a job whose [next_run] is not the next top of the
    hour (23:00:00): it is not set at all. *)
Lemma schedule_hourly_next_run_unset :
  ∃ jid w' row,
    schedule_url sample.env0 "https://example.test/page" "hourly" false sample.w0
    = (Normal jid, w')
    ∧ scraping_jobs (db w') = [row]
    ∧ job_id row = jid
    ∧ job_created_at row = 1700000000%Z
    ∧ spec.next_top_of_hour (job_created_at row) = 1700002800%Z
    ∧ job_next_run row = None
    ∧ job_next_run row ≠ Some (spec.next_top_of_hour (job_created_at row)).
Proof.
  eexists _, _, _. split; [reflexivity|]. cbn.
  repeat split; try reflexivity. discriminate.
Qed.

(** C3. A spec that starts with ["cron:"] and does not split into exactly
    five fields does not make [schedule_url] raise: the call returns the new
    job's id, the job row is stored (active, with the spec as given), and
    the trigger registered is the hourly one, the same schedule entry that
    scheduling with ['hourly'] registers. *)
Theorem malformed_cron_registers_hourly (env : Env) (url schedule : string)
    (use_sel : bool) (w : World) :
  PyStr.startswith schedule "cron:" = true →
  length (cron_parts schedule) ≠ 5 →
  let jid := (scraping_jobs_seq (db w) + 1)%Z in
  ∃ w',
    schedule_url env url schedule use_sel w = (Normal jid, w')
    ∧ scraping_jobs (db w')
      = (scraping_jobs (db w)
           ++ [mkJobRow jid url schedule None None "active" (clock w)])%list
    ∧ beat_schedule w'
      = <["scrape_hourly_" +:+ pretty jid := entry crontab_hourly url use_sel]>
          (beat_schedule w)
    ∧ beat_schedule w'
      = beat_schedule (snd (schedule_url env url "hourly" use_sel w)).
Proof.
  intros Hpre Hlen jid.
  destruct (cron_prefix_not_named schedule Hpre) as (Hh & Hd & Hw).
  eexists. unfold schedule_url, try_except, mbind, Py_bind, bind.
  cbn [db_add_scraping_job add_scraping_job].
  rewrite Hh, Hd, Hw, Hpre, _schedule_cron_malformed by exact Hlen.
  cbn. split; [reflexivity|]. cbn. repeat split.
Qed.

Lemma malformed_cron_registers_hourly_witness :
  PyStr.startswith "cron:0,12,*" "cron:" = true
  ∧ length (cron_parts "cron:0,12,*") ≠ 5
  ∧ ∃ w',
      schedule_url sample.env0 "u" "cron:0,12,*" true sample.w0 = (Normal 1%Z, w')
      ∧ scraping_jobs (db w')
        = [mkJobRow 1 "u" "cron:0,12,*" None None "active" 1700000000]
      ∧ beat_schedule w'
        = <["scrape_hourly_1" := entry crontab_hourly "u" true]> ∅
      ∧ beat_schedule w'
        = beat_schedule (snd (schedule_url sample.env0 "u" "hourly" true sample.w0)).
Proof.
  split; [reflexivity|]. split; [vm_compute; lia|].
  apply (malformed_cron_registers_hourly sample.env0 "u" "cron:0,12,*" true sample.w0);
    [reflexivity | vm_compute; lia].
Defined.

(** ** Removing a job *)

Section Removal.

Lemma update_row_idem (jid : Z) (status : string) (r : JobRow) :
  update_row jid status None (update_row jid status None r)
  = update_row jid status None r.
Proof.
  unfold update_row. destruct (Z.eqb_spec (job_id r) jid) as [Heq|Hne].
  - cbn. rewrite Heq, Z.eqb_refl. reflexivity.
  - destruct (Z.eqb_spec (job_id r) jid); [done|reflexivity].
Qed.

Lemma update_job_status_idem (jid : Z) (status : string) (d : Database) :
  update_job_status jid status None (update_job_status jid status None d)
  = update_job_status jid status None d.
Proof.
  unfold update_job_status. cbn. f_equal.
  rewrite map_map. apply map_ext. intros r. apply update_row_idem.
Qed.

(** Deleting a key only when it is present is deleting it. *)
Lemma del_if_present_eq (key : string) (w : World) :
  del_if_present key w
  = (Normal (), set_beat (delete key (beat_schedule w)) w).
Proof.
  unfold del_if_present. destruct (beat_schedule w !! key) eqn:E; [done|].
  rewrite delete_id by exact E. destruct w; reflexivity.
Qed.

Lemma remove_scheduled_job_eq (jid : Z) (w : World) :
  remove_scheduled_job jid w
  = (Normal (),
     mkWorld (update_job_status jid "inactive" None (db w))
       (without_keys jid (beat_schedule w)) (clock w)).
Proof.
  unfold remove_scheduled_job, try_except, schedule_keys.
  cbn [for_each]. unfold mbind, Py_bind, bind.
  cbn [db_update_job_status]. rewrite !del_if_present_eq. reflexivity.
Qed.

Lemma without_keys_lookup (jid : Z) (b : gmap string BeatEntry) (key : string) :
  key ∈ schedule_keys jid → without_keys jid b !! key = None.
Proof.
  unfold schedule_keys. intros Hin.
  repeat (apply elem_of_cons in Hin as [-> | Hin]);
    [..| by apply elem_of_nil in Hin];
    unfold without_keys; rewrite !lookup_delete; repeat case_decide; done.
Qed.

Lemma without_keys_idem (jid : Z) (b : gmap string BeatEntry) :
  without_keys jid (without_keys jid b) = without_keys jid b.
Proof.
  unfold without_keys at 1.
  rewrite (delete_id _ ("scrape_hourly_" +:+ pretty jid))
    by (apply without_keys_lookup; unfold schedule_keys; set_solver).
  rewrite (delete_id _ ("scrape_daily_" +:+ pretty jid))
    by (apply without_keys_lookup; unfold schedule_keys; set_solver).
  rewrite (delete_id _ ("scrape_weekly_" +:+ pretty jid))
    by (apply without_keys_lookup; unfold schedule_keys; set_solver).
  rewrite (delete_id _ ("scrape_cron_" +:+ pretty jid))
    by (apply without_keys_lookup; unfold schedule_keys; set_solver).
  reflexivity.
Qed.

End Removal.

(** C5. For every job id that the store can hold (a signed 64-bit
    integer), removing the job does not raise; it leaves every row with
    that id inactive and none of the job's four trigger keys registered;
    and a second removal of the same id raises nothing and returns the very
    same process state, job table and beat schedule included. *)
Theorem remove_scheduled_job_idempotent (job_id : Z) (w : World) :
  sqlite_int job_id = true →
  ∃ w1,
    remove_scheduled_job job_id w = (Normal (), w1)
    ∧ (∀ row, row ∈ scraping_jobs (db w1) →
              database.job_id row = job_id → job_status row = "inactive")
    ∧ (∀ key, key ∈ schedule_keys job_id → beat_schedule w1 !! key = None)
    ∧ remove_scheduled_job job_id w1 = (Normal (), w1).
Proof.
  intros _.
  eexists. split; [apply remove_scheduled_job_eq|]. split; [|split].
  - cbn. intros row Hin Hid.
    apply list_elem_of_fmap in Hin as (r & -> & _).
    unfold update_row in *.
    destruct (Z.eqb_spec (database.job_id r) job_id) as [_|Hne]; [reflexivity|].
    contradiction.
  - intros key Hin. cbn. apply without_keys_lookup, Hin.
  - rewrite remove_scheduled_job_eq. cbn.
    rewrite update_job_status_idem, without_keys_idem. reflexivity.
Qed.

Lemma remove_scheduled_job_idempotent_witness :
  sqlite_int 1 = true
  ∧ map job_status (scraping_jobs (db sample.w1)) = ["active"]
  ∧ is_Some (beat_schedule sample.w1 !! "scrape_hourly_1")
  ∧ ∃ w1,
      remove_scheduled_job 1 sample.w1 = (Normal (), w1)
      ∧ (∀ row, row ∈ scraping_jobs (db w1) →
                database.job_id row = 1%Z → job_status row = "inactive")
      ∧ (∀ key, key ∈ schedule_keys 1 → beat_schedule w1 !! key = None)
      ∧ remove_scheduled_job 1 w1 = (Normal (), w1).
Proof.
  split; [reflexivity|]. split; [vm_compute; reflexivity|].
  split; [vm_compute; eexists; reflexivity|].
  apply (remove_scheduled_job_idempotent 1 sample.w1 eq_refl).
Defined.

(** ** The job table only grows *)

Section JobTable.
Variable env : Env.

Lemma update_row_keeps_identity (jid : Z) (status : string)
    (last_run : option Z) :
  keeps_identity (update_row jid status last_run).
Proof.
  intros r. unfold update_row.
  destruct (job_id r =? jid)%Z; [destruct last_run|]; done.
Qed.

(** [_schedule_cron] writes to the beat schedule only. *)
Lemma _schedule_cron_db (url : string) (jid : Z) (schedule : string)
    (use_sel : bool) (w : World) :
  db (snd (_schedule_cron env url jid schedule use_sel w)) = db w.
Proof.
  unfold _schedule_cron, try_except.
  destruct (length (cron_parts schedule) =? 5); [|reflexivity].
  destruct (cron_parts schedule) as [|mi [|ho [|da [|mo [|dw [|x l]]]]]];
    try reflexivity.
  unfold mbind, Py_bind, bind, lift.
  destruct (crontab_custom env _ _ _ _ _); reflexivity.
Qed.

Lemma schedule_url_jobs (url schedule : string) (use_sel : bool) (w : World) :
  scraping_jobs (db (snd (schedule_url env url schedule use_sel w)))
  = (scraping_jobs (db w)
       ++ [mkJobRow ((scraping_jobs_seq (db w) + 1)%Z) url schedule None None
             "active" (clock w)])%list.
Proof.
  unfold schedule_url, try_except, mbind, Py_bind, bind.
  cbn [db_add_scraping_job add_scraping_job].
  destruct (String.eqb schedule "hourly"); [reflexivity|].
  destruct (String.eqb schedule "daily"); [reflexivity|].
  destruct (String.eqb schedule "weekly"); [reflexivity|].
  destruct (PyStr.startswith schedule "cron:"); [|reflexivity].
  match goal with
  | |- context [_schedule_cron env url ?j schedule use_sel ?w0] =>
      pose proof (_schedule_cron_db url j schedule use_sel w0) as Hdb;
      destruct (_schedule_cron env url j schedule use_sel w0) as [[[]|e] w']
  end; cbn in *; rewrite Hdb; reflexivity.
Qed.

Lemma scrape_url_task_jobs (retries : nat) (url : string) (use_sel : bool)
    (w : World) :
  scraping_jobs (db (snd (scrape_url_task env retries url use_sel w)))
  = scraping_jobs (db w).
Proof.
  destruct (Nat.lt_ge_cases retries max_retries) as [Hlt|Hge].
  - rewrite scrape_url_task_retry by exact Hlt. reflexivity.
  - rewrite scrape_url_task_exhausted by exact Hge. reflexivity.
Qed.

(** Every operation maps the old rows one by one through a transformer
    that keeps their identity, and may append new rows after them. *)
Lemma perform_jobs (op : ops.Operation) (w : World) :
  ∃ f extra,
    keeps_identity f
    ∧ scraping_jobs (db (ops.perform env op w))
      = (map f (scraping_jobs (db w)) ++ extra)%list.
Proof.
  assert (Hid : keeps_identity (λ r, r)) by (intros r; done).
  destruct op as [data|url schedule|jid status last_run|url schedule use_sel
                 |jid|retries url use_sel|urls use_sel]; cbn [ops.perform].
  - exists (λ r, r), []. split; [exact Hid|].
    cbn. rewrite map_id, app_nil_r. reflexivity.
  - exists (λ r, r), [mkJobRow ((scraping_jobs_seq (db w) + 1)%Z) url schedule
                        None None "active" (clock w)].
    split; [exact Hid|]. cbn. rewrite map_id. reflexivity.
  - exists (update_row jid status last_run), [].
    split; [apply update_row_keeps_identity|].
    cbn. rewrite app_nil_r. reflexivity.
  - exists (λ r, r), [mkJobRow ((scraping_jobs_seq (db w) + 1)%Z) url schedule
                        None None "active" (clock w)].
    split; [exact Hid|]. rewrite schedule_url_jobs, map_id. reflexivity.
  - exists (update_row jid "inactive" None), [].
    split; [apply update_row_keeps_identity|].
    rewrite remove_scheduled_job_eq. cbn. rewrite app_nil_r. reflexivity.
  - exists (λ r, r), []. split; [exact Hid|].
    rewrite scrape_url_task_jobs, map_id, app_nil_r. reflexivity.
  - exists (λ r, r), []. split; [exact Hid|].
    rewrite scrape_multiple_urls_task_aborts. cbn.
    rewrite map_id, app_nil_r. reflexivity.
Qed.

End JobTable.

(** C9. No operation removes a job row: after any operation, the row that
    was at a position of the job table is still at that position with the
    same id, target, recurrence spec, [created_at] and [next_run]. Removing
    a job keeps the number of rows, changes no field other than [status],
    and sets [status] to ['inactive'] on the rows with that id only. *)
Theorem jobs_are_never_deleted (env : Env) :
  (∀ op w i row,
     scraping_jobs (db w) !! i = Some row →
     ∃ row', scraping_jobs (db (ops.perform env op w)) !! i = Some row'
             ∧ job_id row' = job_id row ∧ job_url row' = job_url row
             ∧ job_schedule row' = job_schedule row
             ∧ job_created_at row' = job_created_at row
             ∧ job_next_run row' = job_next_run row)
  ∧ (∀ jid w,
       length (scraping_jobs (db (snd (remove_scheduled_job jid w))))
       = length (scraping_jobs (db w)))
  ∧ (∀ jid w i row,
       scraping_jobs (db w) !! i = Some row →
       scraping_jobs (db (snd (remove_scheduled_job jid w))) !! i
       = Some (mkJobRow (job_id row) (job_url row) (job_schedule row)
                 (job_last_run row) (job_next_run row)
                 (if (job_id row =? jid)%Z then "inactive" else job_status row)
                 (job_created_at row))).
Proof.
  split; [|split].
  - intros op w i row Hrow.
    destruct (perform_jobs env op w) as (f & extra & Hf & ->).
    exists (f row). split; [|apply Hf].
    apply lookup_app_l_Some. rewrite list_lookup_fmap, Hrow. reflexivity.
  - intros jid w. rewrite remove_scheduled_job_eq. cbn. apply length_map.
  - intros jid w i row Hrow. rewrite remove_scheduled_job_eq. cbn.
    change (map ?f ?l) with (f <$> l).
    rewrite list_lookup_fmap, Hrow. cbn. f_equal.
    unfold update_row. destruct (job_id row =? jid)%Z; [reflexivity|].
    destruct row; reflexivity.
Qed.

(** ** Polling a task *)

(** C6, as the code has it. When the backend answers, the record holds
    [task_id], [status], [result] and [ready]: [status] is the backend's
    state as it is, [ready] tells whether that state is one of SUCCESS,
    FAILURE and REVOKED, and [result] is [None] unless ready; so a pending,
    received, started or retrying task has [ready = False] and no result.
    When reading the backend raises, the record holds [task_id], the status
    ['error'] and [error], and neither [ready] nor [result]. *)
Theorem get_task_status_shape (env : Env) (task_id : string) :
  let d := get_task_status env task_id in
  match backend_meta env task_id with
  | Normal m =>
      d !! "task_id" = Some (PStr task_id)
      ∧ d !! "status" = Some (PStr (tm_state m))
      ∧ d !! "ready" = Some (PBool (ready m))
      ∧ d !! "result" = Some (if ready m then PValue (tm_result m) else PNone)
      ∧ (tm_state m ∈ ["PENDING"; "RECEIVED"; "STARTED"; "RETRY"] →
         d !! "ready" = Some (PBool false) ∧ d !! "result" = Some PNone)
  | Raised e =>
      d !! "task_id" = Some (PStr task_id)
      ∧ d !! "status" = Some (PStr "error")
      ∧ d !! "error" = Some (PStr e)
      ∧ d !! "ready" = None
      ∧ d !! "result" = None
  end.
Proof.
  intros d. subst d. unfold get_task_status.
  destruct (backend_meta env task_id) as [m|e].
  - assert (Hresult :
      (<["task_id" := PStr task_id]>
         (<["status" := PStr (tm_state m)]>
            (<["result" := if ready m then PValue (tm_result m) else PNone]>
               (<["ready" := PBool (ready m)]> ∅))) : gmap string PyVal) !! "result"
      = Some (if ready m then PValue (tm_result m) else PNone))
      by (rewrite !lookup_insert_ne by done; apply lookup_insert_eq).
    assert (Hready :
      (<["task_id" := PStr task_id]>
         (<["status" := PStr (tm_state m)]>
            (<["result" := if ready m then PValue (tm_result m) else PNone]>
               (<["ready" := PBool (ready m)]> ∅))) : gmap string PyVal) !! "ready"
      = Some (PBool (ready m)))
      by (rewrite !lookup_insert_ne by done; apply lookup_insert_eq).
    split; [apply lookup_insert_eq|].
    split; [rewrite lookup_insert_ne by done; apply lookup_insert_eq|].
    split; [exact Hready|]. split; [exact Hresult|].
    intros Hin. rewrite Hready, Hresult.
    assert (Hr : ready m = false).
    { unfold ready, ready_states. apply bool_decide_eq_false. intros Hrd.
      repeat (apply elem_of_cons in Hin as [Hin | Hin];
              [rewrite Hin in Hrd;
               repeat (apply elem_of_cons in Hrd as [Hrd | Hrd];
                       [discriminate Hrd|]);
               by apply elem_of_nil in Hrd|]).
      by apply elem_of_nil in Hin. }
    rewrite Hr. done.
  - split; [apply lookup_insert_eq|].
    split; [rewrite lookup_insert_ne by done; apply lookup_insert_eq|].
    split; [rewrite !lookup_insert_ne by done; apply lookup_insert_eq|].
    split; rewrite !lookup_insert_ne by done; apply lookup_empty.
Qed.

(** C6, refuted as stated. For a task the backend cannot be read for, the
    record has neither [ready] nor [result], and its status ['error'] is not
    one that begins with ["error:"]; for a pending task the status is
    ['PENDING'], neither a success nor an error status. *)
Lemma task_status_unresolved :
  ¬ spec.complete_record (get_task_status sample.env0 "lost-task")
  ∧ get_task_status sample.env0 "lost-task" !! "status" = Some (PStr "error")
  ∧ ¬ spec.resolved_status "error"
  ∧ get_task_status sample.env0 "pending-task" !! "status" = Some (PStr "PENDING")
  ∧ ¬ spec.resolved_status "PENDING".
Proof.
  split; [|split; [|split; [|split]]].
  - intros (_ & [v Hv] & _). vm_compute in Hv. discriminate Hv.
  - vm_compute. reflexivity.
  - intros [H|[H|H]]; discriminate H.
  - vm_compute. reflexivity.
  - intros [H|[H|H]]; discriminate H.
Qed.

(** ** The extractor *)

Lemma scrape_with_requests_source (n : Net) (url : string) :
  r_source (scrape_with_requests n url) = "requests".
Proof.
  unfold scrape_with_requests.
  destruct (http_get n url) as [resp|e]; [|reflexivity].
  destruct (raise_for_status url resp); [|reflexivity].
  destruct (_extract_content (content resp)). reflexivity.
Qed.

(** C7, as the code has it. When setting up the browser raises, the scraper
    built with [use_selenium=True] has the flag off, closing it leaves the
    flag off, and every fetch through it is the static fetch: the result
    carries the source ['requests'] and is, metadata included, the result a
    scraper built with [use_selenium=False] returns. *)
Theorem selenium_failure_degrades_to_requests (n : Net) (hl : bool) :
  chrome_start n hl ≠ Started →
  let s := __init__ n true hl in
  use_selenium s = false
  ∧ use_selenium (close s) = false
  ∧ ∀ url,
      scrape n s url = scrape_with_requests n url
      ∧ scrape n (close s) url = scrape_with_requests n url
      ∧ r_source (scrape n s url) = "requests"
      ∧ scrape n s url = scrape n (__init__ n false hl) url.
Proof.
  intros Hfail s. subst s. unfold __init__, _setup_selenium. cbn.
  destruct (chrome_start n hl); [done| |]; cbn; repeat split;
    apply scrape_with_requests_source.
Qed.

Lemma selenium_failure_degrades_to_requests_witness :
  chrome_start sample.net0 true ≠ Started
  ∧ use_selenium (__init__ sample.net0 true true) = false
  ∧ r_source (scrape sample.net0 (__init__ sample.net0 true true) "a") = "requests"
  ∧ r_status (scrape sample.net0 (__init__ sample.net0 true true) "a") = "success".
Proof.
  assert (Hfail : chrome_start sample.net0 true ≠ Started) by discriminate.
  split; [exact Hfail|].
  destruct (selenium_failure_degrades_to_requests sample.net0 true Hfail)
    as (Hflag & _ & Hall).
  split; [exact Hflag|].
  destruct (Hall "a") as (_ & _ & Hsrc & _).
  split; [exact Hsrc|]. vm_compute. reflexivity.
Defined.

(** C7, refuted as stated. With Chrome unavailable, the metadata of a fetch
    through a scraper that asked for the browser is exactly the metadata of
    a fetch through one that never did: the page's [author] annotation, its
    links and images, the status code and the content type. Nothing in it
    tells the two apart. *)
Lemma degraded_metadata_records_nothing :
  chrome_start sample.net0 true = NotStarted "chromedriver not found"
  ∧ r_metadata (scrape sample.net0 (__init__ sample.net0 true true) "a")
    = r_metadata (scrape sample.net0 (__init__ sample.net0 false true) "a")
  ∧ r_metadata (scrape sample.net0 (__init__ sample.net0 true true) "a")
    = <["author" := MStr "someone"]>
      (<["links" := MList ["/next"]]>
      (<["images" := MList []]>
      (<["status_code" := MInt 200]>
      (<["content_type" := MStr "text/html"]> ∅)))).
Proof. repeat split; vm_compute; reflexivity. Qed.

(** The selector loop returns the element of the first selector, in list
    order, that matches anything. *)
Lemma first_region_spec (s : bs4.soup) (sels : list string) :
  match first_region s sels with
  | Some element =>
      ∃ i sel,
        sels !! i = Some sel
        ∧ bs4.select_one s sel = Some element
        ∧ ∀ j sel', j < i → sels !! j = Some sel' → bs4.select_one s sel' = None
  | None => ∀ sel, sel ∈ sels → bs4.select_one s sel = None
  end.
Proof.
  induction sels as [|sel rest IH]; cbn.
  - intros sel Hin. by apply elem_of_nil in Hin.
  - destruct (bs4.select_one s sel) as [element|] eqn:Hsel.
    + exists 0, sel. split; [reflexivity|]. split; [exact Hsel|]. lia.
    + destruct (first_region s rest) as [element|].
      * destruct IH as (i & sel0 & Hi & Hm & Hbefore).
        exists (S i), sel0. split; [exact Hi|]. split; [exact Hm|].
        intros [|j] sel' Hlt Hj; cbn in Hj.
        -- by simplify_eq.
        -- apply (Hbefore j); [lia|exact Hj].
      * intros sel' Hin. apply elem_of_cons in Hin as [->|Hin]; [exact Hsel|].
        by apply IH.
Qed.

(** C8. For a response that is fetched and accepted, the body of the static
    result is chosen over the document with its script and style elements
    removed: either some selector of the fixed list
    [main, article, .content, .main-content, #content, #main, .post-content,
    .entry-content] matches, no selector before it in the list matches, and
    the body is the text of that selector's first match; or no selector of
    the list matches and the body is the text of the whole document. *)
Theorem extract_content_priority (n : Net) (url : string) (resp : Response) :
  http_get n url = Normal resp →
  raise_for_status url resp = Normal () →
  let cleaned := bs4.decompose_all ["script"; "style"] (content resp) in
  let body := r_content (scrape_with_requests n url) in
  content_selectors
  = ["main"; "article"; ".content"; ".main-content";
     "#content"; "#main"; ".post-content"; ".entry-content"]
  ∧ ((∃ i sel element,
        content_selectors !! i = Some sel
        ∧ bs4.select_one cleaned sel = Some element
        ∧ (∀ j sel', j < i → content_selectors !! j = Some sel' →
                     bs4.select_one cleaned sel' = None)
        ∧ body = bs4.get_text_sep (bs4.tag_children element))
     ∨ ((∀ sel, sel ∈ content_selectors → bs4.select_one cleaned sel = None)
        ∧ body = bs4.get_text_sep cleaned)).
Proof.
  intros Hget Hok cleaned body. split; [reflexivity|].
  subst body. unfold scrape_with_requests. rewrite Hget, Hok.
  unfold _extract_content. fold cleaned.
  pose proof (first_region_spec cleaned content_selectors) as Hspec.
  destruct (first_region cleaned content_selectors) as [element|]; cbn.
  - left. destruct Hspec as (i & sel & Hi & Hm & Hbefore).
    exists i, sel, element. done.
  - right. done.
Qed.

Lemma extract_content_priority_witness :
  http_get sample.net0 "a"
  = Normal (mkResponse 200 "OK" (Some "text/html") sample.page_a)
  ∧ raise_for_status "a" (mkResponse 200 "OK" (Some "text/html") sample.page_a)
    = Normal ()
  ∧ bs4.select_one (bs4.decompose_all ["script"; "style"] sample.page_a) "main" = None
  ∧ r_content (scrape_with_requests sample.net0 "a") = "Hello world"
  ∧ ((∃ i sel element,
        content_selectors !! i = Some sel
        ∧ bs4.select_one (bs4.decompose_all ["script"; "style"] sample.page_a) sel
          = Some element
        ∧ (∀ j sel', j < i → content_selectors !! j = Some sel' →
             bs4.select_one (bs4.decompose_all ["script"; "style"] sample.page_a) sel'
             = None)
        ∧ r_content (scrape_with_requests sample.net0 "a")
          = bs4.get_text_sep (bs4.tag_children element))
     ∨ ((∀ sel, sel ∈ content_selectors →
           bs4.select_one (bs4.decompose_all ["script"; "style"] sample.page_a) sel
           = None)
        ∧ r_content (scrape_with_requests sample.net0 "a")
          = bs4.get_text_sep (bs4.decompose_all ["script"; "style"] sample.page_a))).
Proof.
  split; [reflexivity|]. split; [reflexivity|].
  split; [vm_compute; reflexivity|]. split; [vm_compute; reflexivity|].
  apply (extract_content_priority sample.net0 "a"
           (mkResponse 200 "OK" (Some "text/html") sample.page_a));
    reflexivity.
Defined.

(** The fallback, evaluated: no content region, so the body is the text of
    the document, without the style sheet. *)
Example body_of_plain_page :
  first_region (bs4.decompose_all ["script"; "style"] sample.page_plain)
    content_selectors = None
  ∧ r_content (scrape_with_requests sample.net0 "plain") = "one two".
Proof. split; vm_compute; reflexivity. Qed.

(** * Further properties of the code *)

Import database_reads scraping_manager store.

(** ** The store: row ids *)

Section StoreInvariant.
Variable env : Env.

Lemma schedule_url_db (url schedule : string) (use_sel : bool) (w : World) :
  db (snd (schedule_url env url schedule use_sel w))
  = snd (add_scraping_job (clock w) url schedule (db w)).
Proof.
  unfold schedule_url, try_except, mbind, Py_bind, bind.
  cbn [db_add_scraping_job add_scraping_job].
  destruct (String.eqb schedule "hourly"); [reflexivity|].
  destruct (String.eqb schedule "daily"); [reflexivity|].
  destruct (String.eqb schedule "weekly"); [reflexivity|].
  destruct (PyStr.startswith schedule "cron:"); [|reflexivity].
  match goal with
  | |- context [_schedule_cron env url ?j schedule use_sel ?w0] =>
      pose proof (_schedule_cron_db env url j schedule use_sel w0) as Hdb;
      destruct (_schedule_cron env url j schedule use_sel w0) as [[[]|e] w']
  end; cbn in *; rewrite Hdb; reflexivity.
Qed.

(** What an operation can do to the database: nothing, one insert into
    either table, or one status update. *)
Lemma perform_db (op : Operation) (w : World) :
  db (perform env op w) = db w
  ∨ (∃ data, db (perform env op w) = snd (insert_scraped_data (clock w) data (db w)))
  ∨ (∃ url schedule,
       db (perform env op w) = snd (add_scraping_job (clock w) url schedule (db w)))
  ∨ (∃ jid status last_run,
       db (perform env op w) = update_job_status jid status last_run (db w)).
Proof.
  destruct op as [data|url schedule|jid status last_run|url schedule use_sel
                 |jid|retries url use_sel|urls use_sel]; cbn [perform].
  - right; left. by exists data.
  - right; right; left. by exists url, schedule.
  - right; right; right. by exists jid, status, last_run.
  - right; right; left. exists url, schedule. apply schedule_url_db.
  - right; right; right. exists jid, "inactive", None.
    rewrite remove_scheduled_job_eq. reflexivity.
  - destruct (Nat.lt_ge_cases retries max_retries) as [Hlt|Hge].
    + left. rewrite scrape_url_task_retry by exact Hlt. reflexivity.
    + right; left. eexists.
      rewrite scrape_url_task_exhausted by exact Hge. reflexivity.
  - left. rewrite scrape_multiple_urls_task_aborts. reflexivity.
Qed.

End StoreInvariant.

Lemma NoDup_snoc_fresh (ids : list Z) (top : Z) :
  NoDup ids → Forall (λ i, (i ≤ top)%Z) ids → NoDup (ids ++ [(top + 1)%Z]).
Proof.
  intros Hnd Hle. apply NoDup_app. split; [exact Hnd|]. split.
  - intros i Hi Hin. apply list_elem_of_singleton in Hin. subst i.
    rewrite Forall_forall in Hle. specialize (Hle _ Hi). lia.
  - apply NoDup_singleton.
Qed.

Lemma insert_scraped_data_wf (now : Z) (data : ScrapeResult) (d : Database) :
  well_formed d → well_formed (snd (insert_scraped_data now data d)).
Proof.
  intros (Hnd & Hle & Hjn & Hjl). unfold well_formed. cbn.
  rewrite map_app. cbn. split; [|split; [|split]]; try assumption.
  - apply NoDup_snoc_fresh; [exact Hnd|].
    apply Forall_fmap. exact Hle.
  - apply Forall_app. split.
    + eapply Forall_impl; [exact Hle|]. cbn. intros; lia.
    + apply Forall_singleton. cbn. lia.
Qed.

Lemma add_scraping_job_wf (now : Z) (url schedule : string) (d : Database) :
  well_formed d → well_formed (snd (add_scraping_job now url schedule d)).
Proof.
  intros (Hnd & Hle & Hjn & Hjl). unfold well_formed. cbn.
  rewrite map_app. cbn. split; [|split; [|split]]; try assumption.
  - apply NoDup_snoc_fresh; [exact Hjn|].
    apply Forall_fmap. exact Hjl.
  - apply Forall_app. split.
    + eapply Forall_impl; [exact Hjl|]. cbn. intros; lia.
    + apply Forall_singleton. cbn. lia.
Qed.

Lemma update_row_id (jid : Z) (status : string) (last_run : option Z) (r : JobRow) :
  job_id (update_row jid status last_run r) = job_id r.
Proof. unfold update_row. destruct (job_id r =? jid)%Z; [destruct last_run|]; done. Qed.

Lemma update_job_status_wf (jid : Z) (status : string) (last_run : option Z)
    (d : Database) :
  well_formed d → well_formed (update_job_status jid status last_run d).
Proof.
  intros (Hnd & Hle & Hjn & Hjl). unfold well_formed. cbn.
  rewrite map_map. rewrite (map_ext _ job_id) by apply update_row_id.
  split; [|split; [|split]]; try assumption.
  apply Forall_fmap. eapply Forall_impl; [exact Hjl|].
  intros r Hr. cbn. rewrite update_row_id. exact Hr.
Qed.

(** X1. Starting from a store whose row ids are pairwise distinct and
    bounded by the table counters, any sequence of operations of the three
    modules leaves it so: no operation ever reuses or duplicates an id. *)
Theorem operations_keep_ids_distinct (env : Env) (ops : list Operation) (w : World) :
  well_formed (db w) → well_formed (db (perform_all env ops w)).
Proof.
  unfold perform_all. revert w.
  induction ops as [|op ops IH]; intros w Hwf; [exact Hwf|].
  cbn [foldl]. apply IH.
  destruct (perform_db env op w)
    as [->|[[data ->]|[(url & schedule & ->)|(jid & status & last_run & ->)]]].
  - exact Hwf.
  - by apply insert_scraped_data_wf.
  - by apply add_scraping_job_wf.
  - by apply update_job_status_wf.
Qed.

Lemma operations_keep_ids_distinct_witness :
  well_formed (db sample.w0)
  ∧ well_formed
      (db (perform_all sample.env0
             [ScheduleUrl "u" "daily" false; ScrapeUrlTask 3 "a" false;
              RemoveScheduledJob 1; ScheduleUrl "v" "cron:1,2" true]
             sample.w0)).
Proof.
  assert (Hwf : well_formed (db sample.w0)).
  { repeat split; cbn; constructor. }
  split; [exact Hwf|].
  apply (operations_keep_ids_distinct sample.env0 _ sample.w0 Hwf).
Defined.

(** X2. In a store with distinct, bounded ids, the id [insert_scraped_data]
    returns was carried by no row before, and afterwards the rows with that
    id are exactly one: the row with the URL, title, content, metadata,
    source and status of the dictionary, stamped with the current time. *)
Theorem insert_scraped_data_lookup (now : Z) (data : ScrapeResult) (d : Database) :
  well_formed d →
  let '(rid, d') := insert_scraped_data now data d in
  (∀ r, r ∈ scraped_data d → sd_id r ≠ rid)
  ∧ List.filter (λ r, (sd_id r =? rid)%Z) (scraped_data d')
    = [mkScrapedRow rid (r_url data) (r_title data) (r_content data)
         (r_metadata data) now (r_source data) (r_status data)].
Proof.
  intros (_ & Hle & _). cbn.
  assert (Hold : ∀ r, r ∈ scraped_data d → sd_id r ≠ (scraped_data_seq d + 1)%Z).
  { intros r Hr. rewrite Forall_forall in Hle. specialize (Hle r Hr). lia. }
  split; [exact Hold|].
  rewrite List.filter_app. cbn. rewrite Z.eqb_refl.
  replace (List.filter _ (scraped_data d)) with (@nil ScrapedRow); [reflexivity|].
  symmetry. induction (scraped_data d) as [|r l IH]; [reflexivity|]. cbn.
  destruct (Z.eqb_spec (sd_id r) (scraped_data_seq d + 1)) as [Heq|_].
  - exfalso. apply (Hold r); [left|exact Heq].
  - apply IH.
    + by inversion Hle.
    + intros r' Hr'. apply Hold. by right.
Qed.

Lemma insert_scraped_data_lookup_witness :
  well_formed sample_store.store2
  ∧ map sd_id (scraped_data sample_store.store2) = [1; 2]%Z
  ∧ fst (insert_scraped_data 30 (error_result "u" "requests" "x")
           sample_store.store2) = 3%Z
  ∧ (∀ r, r ∈ scraped_data sample_store.store2 → sd_id r ≠ 3%Z)
  ∧ List.filter (λ r, (sd_id r =? 3)%Z)
      (scraped_data (snd (insert_scraped_data 30 (error_result "u" "requests" "x")
                            sample_store.store2)))
    = [mkScrapedRow 3 "u" "" "" ∅ 30 "requests" "error: x"].
Proof.
  assert (Hwf : well_formed sample_store.store2).
  { split; [|split; [|split]].
    - apply NoDup_cons. split; [|apply NoDup_singleton].
      intros Hin. apply list_elem_of_singleton in Hin. discriminate Hin.
    - repeat constructor; cbn; lia.
    - apply NoDup_nil_2.
    - apply Forall_nil_2. }
  split; [exact Hwf|]. split; [reflexivity|]. split; [reflexivity|].
  apply (insert_scraped_data_lookup 30 (error_result "u" "requests" "x")
           sample_store.store2 Hwf).
Defined.

(** ** The store: reading *)

Lemma StronglySorted_sublist {A} (R : relation A) (l1 l2 : list A) :
  l1 `sublist_of` l2 → StronglySorted R l2 → StronglySorted R l1.
Proof.
  induction 1 as [|x l1 l2 Hsub IH|x l1 l2 Hsub IH]; intros Hs.
  - constructor.
  - apply StronglySorted_inv in Hs as [Hs Hall]. constructor; [by apply IH|].
    rewrite Forall_forall in *. intros y Hy. apply Hall.
    by apply (sublist_subseteq _ _ Hsub).
  - apply StronglySorted_inv in Hs as [Hs _]. by apply IH.
Qed.

#[local] Instance scraped_desc_trans : Transitive scraped_desc.
Proof. intros a b c. unfold scraped_desc. lia. Qed.
#[local] Instance scraped_desc_total : Total scraped_desc.
Proof. intros a b. unfold scraped_desc. lia. Qed.
#[local] Instance created_desc_trans : Transitive created_desc.
Proof. intros a b c. unfold created_desc. lia. Qed.
#[local] Instance created_desc_total : Total created_desc.
Proof. intros a b. unfold created_desc. lia. Qed.

Lemma limit_offset_sublist {A} (limit offset : Z) (rows : list A) :
  limit_offset limit offset rows `sublist_of` rows.
Proof.
  unfold limit_offset. destruct (limit <? 0)%Z.
  - apply sublist_drop.
  - etrans; [apply sublist_take|apply sublist_drop].
Qed.

(** X3. When [limit] and [offset] both fit SQLite's signed 64-bit INTEGER,
    [get_scraped_data(limit, offset)] returns rows of the table only,
    newest first, and as many as the table has beyond the offset, capped by
    the limit; a negative limit is no cap and a negative offset skips
    nothing, so [get_scraped_data(-1, 0)] returns every row. When either
    number does not fit, the call raises the overflow error instead. *)
Theorem get_scraped_data_page (limit offset : Z) (d : Database) :
  if sqlite_int limit && sqlite_int offset then
    ∃ rows,
      get_scraped_data limit offset d = Normal rows
      ∧ (∀ r, r ∈ rows → r ∈ scraped_data d)
      ∧ StronglySorted (λ a b, (sd_scraped_at b ≤ sd_scraped_at a)%Z) rows
      ∧ length rows
        = (if (limit <? 0)%Z
           then length (scraped_data d) - Z.to_nat offset
           else Z.to_nat limit `min` (length (scraped_data d) - Z.to_nat offset))
      ∧ ((limit < 0)%Z → (offset ≤ 0)%Z → rows ≡ₚ scraped_data d)
  else get_scraped_data limit offset d = Raised overflow_error.
Proof.
  unfold get_scraped_data.
  destruct (sqlite_int limit && sqlite_int offset); [|reflexivity].
  eexists. split; [reflexivity|]. split; [|split; [|split]].
  - intros r Hr.
    apply (sublist_subseteq _ _ (limit_offset_sublist limit offset _)) in Hr.
    by rewrite merge_sort_Permutation in Hr.
  - apply (StronglySorted_sublist scraped_desc _ _ (limit_offset_sublist _ _ _)).
    apply StronglySorted_merge_sort; apply _.
  - unfold limit_offset.
    assert (Hlen : length (merge_sort scraped_desc (scraped_data d))
                   = length (scraped_data d))
      by (apply Permutation_length, merge_sort_Permutation).
    destruct (limit <? 0)%Z.
    + rewrite length_drop, Hlen. reflexivity.
    + rewrite length_take, length_drop, Hlen. reflexivity.
  - intros Hl Ho. unfold limit_offset.
    destruct (Z.ltb_spec limit 0) as [_|Hge]; [|lia].
    replace (Z.to_nat offset) with 0 by lia. cbn.
    apply merge_sort_Permutation.
Qed.

(** The page of size one after the newest record, and a limit that cannot
    be bound. *)
Example get_scraped_data_sample :
  (∃ r, get_scraped_data 1 1 sample_store.store2 = Normal [r] ∧ sd_id r = 1%Z)
  ∧ (∃ r1 r2, get_scraped_data 100 0 sample_store.store2 = Normal [r1; r2]
              ∧ sd_id r1 = 2%Z ∧ sd_id r2 = 1%Z)
  ∧ get_scraped_data (2 ^ 63) 0 sample_store.store2 = Raised overflow_error.
Proof.
  split; [|split].
  - eexists. split; [vm_compute; reflexivity|reflexivity].
  - eexists _, _. split; [vm_compute; reflexivity|]. split; reflexivity.
  - vm_compute. reflexivity.
Qed.

(** X4. [get_active_jobs()] returns exactly the rows whose status is
    ['active'] (each as often as the table has it, none other), ordered by
    [created_at] from newest to oldest. *)
Theorem get_active_jobs_sorted (d : Database) :
  get_active_jobs d ≡ₚ filter (λ r, job_status r = "active") (scraping_jobs d)
  ∧ (∀ r, r ∈ get_active_jobs d ↔ r ∈ scraping_jobs d ∧ job_status r = "active")
  ∧ StronglySorted (λ a b, (job_created_at b ≤ job_created_at a)%Z)
      (get_active_jobs d).
Proof.
  unfold get_active_jobs. split; [apply merge_sort_Permutation|]. split.
  - intros r. rewrite merge_sort_Permutation, list_elem_of_filter. tauto.
  - apply (StronglySorted_merge_sort created_desc).
Qed.

Section Counting.
Context {A : Type} (key : A → string).

Lemma count_by_lookup (rows : list A) (k : string) :
  count_by key rows !! k
  = (let n := length (filter (λ r, key r = k) rows) in
     if n =? 0 then None else Some n).
Proof.
  induction rows as [|r rows IH]; [apply lookup_empty|].
  cbn [count_by foldr]. fold (count_by key rows).
  destruct (decide (key r = k)) as [Heq|Hne].
  - rewrite filter_cons_True by exact Heq. rewrite Heq, lookup_insert_eq, IH.
    cbn. destruct (length (filter (λ r0, key r0 = k) rows)); reflexivity.
  - rewrite filter_cons_False by exact Hne.
    rewrite lookup_insert_ne by exact Hne. apply IH.
Qed.

Lemma sum_counts_insert_fresh (m : gmap string nat) (k : string) (n : nat) :
  m !! k = None → sum_counts (<[k := n]> m) = n + sum_counts m.
Proof.
  intros Hk. unfold sum_counts.
  apply (map_fold_insert_L (λ (_ : string) (n acc : nat), n + acc)); [|exact Hk].
  intros. lia.
Qed.

Lemma sum_counts_present (m : gmap string nat) (k : string) (n : nat) :
  m !! k = Some n → sum_counts m = n + sum_counts (delete k m).
Proof.
  intros Hk. unfold sum_counts.
  apply (map_fold_delete_L (λ (_ : string) (n acc : nat), n + acc)); [|exact Hk].
  intros. lia.
Qed.

Lemma count_by_sum (rows : list A) :
  sum_counts (count_by key rows) = length rows.
Proof.
  induction rows as [|r rows IH]; [apply map_fold_empty|].
  cbn [count_by foldr length]. fold (count_by key rows).
  destruct (count_by key rows !! key r) as [v|] eqn:Hk; cbn [default].
  - rewrite <- insert_delete_eq.
    rewrite sum_counts_insert_fresh by apply lookup_delete_eq.
    rewrite (sum_counts_present _ _ _ Hk) in IH. unfold id. lia.
  - rewrite sum_counts_insert_fresh by exact Hk. lia.
Qed.

End Counting.

Lemma filter_eqb_decide {A} (f : A → string) (s : string) (l : list A) :
  List.filter (λ r, String.eqb (f r) s) l = filter (λ r, f r = s) l.
Proof.
  induction l as [|r l IH]; [reflexivity|]. cbn [List.filter].
  destruct (String.eqb_spec (f r) s) as [Heq|Hne].
  - rewrite filter_cons_True by exact Heq. by rewrite IH.
  - rewrite filter_cons_False by exact Hne. exact IH.
Qed.

(** X5. [get_statistics()] counts every record once: a status (or source)
    is a key of its dictionary exactly when some record carries it, its
    value is the number of such records, the values of either dictionary add
    up to [total_records], and [active_jobs] is the number of jobs
    [get_active_jobs()] lists. *)
Theorem get_statistics_counts (d : Database) :
  let st := get_statistics d in
  total_records st = length (scraped_data d)
  ∧ (∀ s n, status_counts st !! s = Some n ↔
       n ≠ 0 ∧ n = length (filter (λ r, sd_status r = s) (scraped_data d)))
  ∧ (∀ s n, source_counts st !! s = Some n ↔
       n ≠ 0 ∧ n = length (filter (λ r, sd_source r = s) (scraped_data d)))
  ∧ sum_counts (status_counts st) = total_records st
  ∧ sum_counts (source_counts st) = total_records st
  ∧ active_jobs st = length (get_active_jobs d).
Proof.
  cbn. split; [reflexivity|].
  assert (Hlook : ∀ (key : ScrapedRow → string) s n,
            count_by key (scraped_data d) !! s = Some n ↔
            n ≠ 0 ∧ n = length (filter (λ r, key r = s) (scraped_data d))).
  { intros key s n. rewrite count_by_lookup. cbn.
    destruct (length (filter (λ r, key r = s) (scraped_data d))) as [|m]; cbn.
    - split; [discriminate|]. intros [H0 ->]. contradiction.
    - split; [intros [= <-]; split; [discriminate|reflexivity]|].
      intros [_ ->]. reflexivity. }
  split; [apply Hlook|]. split; [apply Hlook|].
  split; [apply count_by_sum|]. split; [apply count_by_sum|].
  unfold get_active_jobs.
  rewrite (Permutation_length (merge_sort_Permutation _ _)).
  rewrite filter_eqb_decide. reflexivity.
Qed.

(** ** Triggers of different jobs *)

Lemma app_cons_string (c : Ascii.ascii) (s t : string) :
  String c s +:+ t = String c (s +:+ t).
Proof. reflexivity. Qed.

(** The four keys of a job are distinct from the keys of any other job. *)
Lemma schedule_keys_disjoint (jid jid' : Z) (key : string) :
  jid ≠ jid' → key ∈ schedule_keys jid → key ∉ schedule_keys jid'.
Proof.
  intros Hne Hin Hin'. unfold schedule_keys in *.
  repeat (apply elem_of_cons in Hin as [-> | Hin]);
    [..| by apply elem_of_nil in Hin];
    repeat (apply elem_of_cons in Hin' as [Heq | Hin']);
    try (by apply elem_of_nil in Hin');
    try (apply String.app_inj, (inj pretty) in Heq; congruence);
    rewrite !app_cons_string in Heq; discriminate Heq.
Qed.

Lemma schedule_keys_NoDup (jid : Z) : NoDup (schedule_keys jid).
Proof.
  unfold schedule_keys.
  repeat (apply NoDup_cons; split;
          [intros Hin;
           repeat (apply elem_of_cons in Hin as [Heq | Hin];
                   [rewrite !app_cons_string in Heq; discriminate Heq|]);
           by apply elem_of_nil in Hin|]).
  apply NoDup_nil_2.
Qed.

Section ScheduleAny.
Variable env : Env.

(** Whatever the spec, [_schedule_cron] ends normally having written one
    entry for the target, under the job's cron key or its hourly key. *)
Lemma _schedule_cron_result (url : string) (jid : Z) (schedule : string)
    (use_sel : bool) (w : World) :
  ∃ key s,
    (key = "scrape_cron_" +:+ pretty jid ∨ key = "scrape_hourly_" +:+ pretty jid)
    ∧ _schedule_cron env url jid schedule use_sel w
      = (Normal (), set_beat (<[key := entry s url use_sel]> (beat_schedule w)) w).
Proof.
  unfold _schedule_cron, try_except.
  assert (Hfallback : ∃ key s,
    (key = "scrape_cron_" +:+ pretty jid ∨ key = "scrape_hourly_" +:+ pretty jid)
    ∧ _schedule_hourly url jid use_sel w
      = (Normal (), set_beat (<[key := entry s url use_sel]> (beat_schedule w)) w)).
  { exists ("scrape_hourly_" +:+ pretty jid), crontab_hourly.
    split; [by right|reflexivity]. }
  destruct (length (cron_parts schedule) =? 5); [|exact Hfallback].
  destruct (cron_parts schedule) as [|mi [|ho [|da [|mo [|dw [|x l]]]]]];
    try exact Hfallback.
  unfold mbind, Py_bind, bind, lift.
  destruct (crontab_custom env _ _ _ _ _) as [s|e]; [|exact Hfallback].
  exists ("scrape_cron_" +:+ pretty jid), s. split; [by left|reflexivity].
Qed.

End ScheduleAny.

(** What [schedule_url] does, for every spec: the insert, and one entry
    under one of the new job's keys. *)
Lemma schedule_url_effect (env : Env) (url schedule : string) (use_sel : bool)
    (w : World) :
  ∃ key s,
    key ∈ schedule_keys (scraping_jobs_seq (db w) + 1)%Z
    ∧ schedule_url env url schedule use_sel w
      = (Normal (scraping_jobs_seq (db w) + 1)%Z,
         mkWorld (snd (add_scraping_job (clock w) url schedule (db w)))
           (<[key := entry s url use_sel]> (beat_schedule w)) (clock w)).
Proof.
  set (jid := (scraping_jobs_seq (db w) + 1)%Z).
  assert (Hkeys : ∀ key,
            key = "scrape_cron_" +:+ pretty jid ∨ key = "scrape_hourly_" +:+ pretty jid →
            key ∈ schedule_keys jid).
  { intros key [->| ->]; unfold schedule_keys; set_solver. }
  unfold schedule_url, try_except, mbind, Py_bind, bind.
  cbn [db_add_scraping_job add_scraping_job]. fold jid.
  destruct (String.eqb schedule "hourly").
  { exists ("scrape_hourly_" +:+ pretty jid), crontab_hourly.
    split; [apply Hkeys; by right|reflexivity]. }
  destruct (String.eqb schedule "daily").
  { exists ("scrape_daily_" +:+ pretty jid), crontab_daily.
    split; [unfold schedule_keys; set_solver|reflexivity]. }
  destruct (String.eqb schedule "weekly").
  { exists ("scrape_weekly_" +:+ pretty jid), crontab_weekly.
    split; [unfold schedule_keys; set_solver|reflexivity]. }
  destruct (PyStr.startswith schedule "cron:").
  - match goal with
    | |- context [_schedule_cron env url jid schedule use_sel ?w0] =>
        destruct (_schedule_cron_result env url jid schedule use_sel w0)
          as (key & s & Hkey & ->)
    end.
    exists key, s. split; [by apply Hkeys|reflexivity].
  - exists ("scrape_hourly_" +:+ pretty jid), crontab_hourly.
    split; [apply Hkeys; by right|reflexivity].
Qed.

(** X6. For every recurrence spec, [schedule_url] returns normally with the
    id of the row it inserted, and writes exactly one beat entry: a trigger
    for the given target and flag, under one of the four keys of that id.
    Every other key, and with it every trigger of any other job, is as it
    was. *)
Theorem schedule_url_registers_one_trigger (env : Env) (url schedule : string)
    (use_sel : bool) (w : World) :
  let jid := (scraping_jobs_seq (db w) + 1)%Z in
  ∃ key s w',
    schedule_url env url schedule use_sel w = (Normal jid, w')
    ∧ db w' = snd (add_scraping_job (clock w) url schedule (db w))
    ∧ key ∈ schedule_keys jid
    ∧ beat_schedule w'
      = <[key := mkBeatEntry "scheduler.scrape_url_task" s (url, use_sel) "scraping"]>
          (beat_schedule w)
    ∧ (∀ k, k ≠ key → beat_schedule w' !! k = beat_schedule w !! k)
    ∧ (∀ jid' k, jid' ≠ jid → k ∈ schedule_keys jid' →
         beat_schedule w' !! k = beat_schedule w !! k).
Proof.
  intros jid.
  destruct (schedule_url_effect env url schedule use_sel w)
    as (key & s & Hkey & Heq).
  exists key, s. eexists. split; [exact Heq|]. cbn.
  split; [reflexivity|]. split; [exact Hkey|]. split; [reflexivity|]. split.
  - intros k Hk. by apply lookup_insert_ne.
  - intros jid' k Hne Hk. apply lookup_insert_ne. intros ->.
    by apply (schedule_keys_disjoint jid' jid k Hne Hk).
Qed.

(** X7. A spec that is none of ['hourly'], ['daily'], ['weekly'] and does
    not start with ["cron:"] is not rejected: the job is stored with the
    spec as given and gets the trigger that ['hourly'] gets. *)
Theorem unknown_schedule_is_hourly (env : Env) (url schedule : string)
    (use_sel : bool) (w : World) :
  schedule ≠ "hourly" → schedule ≠ "daily" → schedule ≠ "weekly" →
  PyStr.startswith schedule "cron:" = false →
  let jid := (scraping_jobs_seq (db w) + 1)%Z in
  ∃ w',
    schedule_url env url schedule use_sel w = (Normal jid, w')
    ∧ scraping_jobs (db w')
      = (scraping_jobs (db w)
           ++ [mkJobRow jid url schedule None None "active" (clock w)])%list
    ∧ beat_schedule w'
      = beat_schedule (snd (schedule_url env url "hourly" use_sel w)).
Proof.
  intros Hh Hd Hw Hc jid. eexists.
  unfold schedule_url at 1. unfold try_except, mbind, Py_bind, bind.
  cbn [db_add_scraping_job add_scraping_job].
  apply String.eqb_neq in Hh, Hd, Hw. rewrite Hh, Hd, Hw, Hc.
  cbn. split; [reflexivity|]. cbn. split; reflexivity.
Qed.

Lemma unknown_schedule_is_hourly_witness :
  "monthly" ≠ "hourly" ∧ "monthly" ≠ "daily" ∧ "monthly" ≠ "weekly"
  ∧ PyStr.startswith "monthly" "cron:" = false
  ∧ ∃ w',
      schedule_url sample.env0 "u" "monthly" false sample.w0 = (Normal 1%Z, w')
      ∧ scraping_jobs (db w')
        = [mkJobRow 1 "u" "monthly" None None "active" 1700000000]
      ∧ beat_schedule w'
        = beat_schedule (snd (schedule_url sample.env0 "u" "hourly" false sample.w0)).
Proof.
  split; [discriminate|]. split; [discriminate|]. split; [discriminate|].
  split; [reflexivity|].
  apply (unknown_schedule_is_hourly sample.env0 "u" "monthly" false sample.w0);
    [discriminate|discriminate|discriminate|reflexivity].
Defined.

(** X8. A spec that starts with ["cron:"] and has exactly five fields is
    handed to celery's [crontab] as [minute], [hour], [day], [month] and
    [day_of_week], every ["*"] replaced by [None]. When that call raises, as
    celery does for the keywords [day] and [month] that [crontab] does not
    have, [schedule_url] still returns the new id: the job is stored with
    the custom spec, the trigger it gets is the hourly one, and no cron
    trigger is registered for it. *)
Theorem five_field_cron_falls_back (env : Env) (url schedule : string)
    (use_sel : bool) (w : World) (mi ho da mo dw e : string) :
  PyStr.startswith schedule "cron:" = true →
  cron_parts schedule = [mi; ho; da; mo; dw] →
  crontab_custom env (unless_star mi) (unless_star ho) (unless_star da)
    (unless_star mo) (unless_star dw) = Raised e →
  let jid := (scraping_jobs_seq (db w) + 1)%Z in
  ∃ w',
    schedule_url env url schedule use_sel w = (Normal jid, w')
    ∧ scraping_jobs (db w')
      = (scraping_jobs (db w)
           ++ [mkJobRow jid url schedule None None "active" (clock w)])%list
    ∧ beat_schedule w'
      = <["scrape_hourly_" +:+ pretty jid := entry crontab_hourly url use_sel]>
          (beat_schedule w)
    ∧ beat_schedule w' !! ("scrape_cron_" +:+ pretty jid)
      = beat_schedule w !! ("scrape_cron_" +:+ pretty jid).
Proof.
  intros Hpre Hparts Hc jid.
  destruct (cron_prefix_not_named schedule Hpre) as (Hh & Hd & Hw).
  eexists. unfold schedule_url, try_except, mbind, Py_bind, bind.
  cbn [db_add_scraping_job add_scraping_job].
  rewrite Hh, Hd, Hw, Hpre. unfold _schedule_cron, try_except.
  rewrite Hparts. cbn [length Nat.eqb]. unfold mbind, Py_bind, bind, lift.
  rewrite Hc. cbn. split; [reflexivity|]. cbn.
  split; [reflexivity|]. split; [reflexivity|].
  apply lookup_insert_ne. rewrite !app_cons_string. discriminate.
Qed.

Lemma five_field_cron_falls_back_witness :
  PyStr.startswith "cron:0,12,*,*,1" "cron:" = true
  ∧ cron_parts "cron:0,12,*,*,1" = ["0"; "12"; "*"; "*"; "1"]
  ∧ crontab_custom sample.env0 (Some "0") (Some "12") None None (Some "1")
    = Raised "BaseSchedule.__init__() got an unexpected keyword argument 'day'"
  ∧ ∃ w',
      schedule_url sample.env0 "u" "cron:0,12,*,*,1" false sample.w0
      = (Normal 1%Z, w')
      ∧ scraping_jobs (db w')
        = [mkJobRow 1 "u" "cron:0,12,*,*,1" None None "active" 1700000000]
      ∧ beat_schedule w'
        = <["scrape_hourly_1" := entry crontab_hourly "u" false]> ∅
      ∧ beat_schedule w' !! "scrape_cron_1" = None.
Proof.
  split; [reflexivity|]. split; [reflexivity|]. split; [reflexivity|].
  apply (five_field_cron_falls_back sample.env0 "u" "cron:0,12,*,*,1" false
           sample.w0 "0" "12" "*" "*" "1"
           "BaseSchedule.__init__() got an unexpected keyword argument 'day'");
    reflexivity.
Defined.

(** ** Parsing a cron expression *)

Section CronParsing.
Import text.

Lemma occurs_app (c : Ascii.ascii) (s t : string) :
  occurs c (s +:+ t) = occurs c s || occurs c t.
Proof.
  induction s as [|c' s IH]; [reflexivity|].
  rewrite app_cons_string. cbn. rewrite IH. apply orb_assoc.
Qed.

Lemma prefix_cron_has_colon (s : string) :
  String.prefix "cron:" s = true → occurs ":" s = true.
Proof.
  destruct s as [|c1 [|c2 [|c3 [|c4 [|c5 s]]]]]; cbn [String.prefix];
    repeat (match goal with
            | |- context [Ascii.ascii_dec ?a ?b] =>
                destruct (Ascii.ascii_dec a b) as [<-|]; cbn [String.prefix]
            end);
    try discriminate.
  intros _. reflexivity.
Qed.

(** Without a colon there is no ["cron:"] to remove. *)
Lemma replace_cron_no_colon (s : string) :
  occurs ":" s = false → PyStr.replace_go "cron:" "" 0 s = s.
Proof.
  induction s as [|c s IH]; [reflexivity|]. intros Hocc.
  cbn [PyStr.replace_go].
  destruct (String.prefix "cron:" (String c s)) eqn:Hpre.
  - apply prefix_cron_has_colon in Hpre. congruence.
  - f_equal. apply IH. cbn in Hocc. by apply orb_false_elim in Hocc as [_ ?].
Qed.

Lemma replace_cron_prefix (rest : string) :
  occurs ":" rest = false → PyStr.replace ("cron:" +:+ rest) "cron:" "" = rest.
Proof.
  intros Hocc. unfold PyStr.replace. rewrite !app_cons_string.
  change ("" +:+ rest) with rest. cbn.
  change ("" +:+ PyStr.replace_go "cron:" "" 0 rest)
    with (PyStr.replace_go "cron:" "" 0 rest).
  replace (String.prefix "" rest) with true by (by destruct rest).
  by apply replace_cron_no_colon.
Qed.

Lemma split_no_sep (sep : Ascii.ascii) (s : string) :
  occurs sep s = false → PyStr.split sep s = [s].
Proof.
  induction s as [|c s IH]; [reflexivity|]. cbn. intros Hocc.
  apply orb_false_elim in Hocc as [Hc Hs]. rewrite Hc, (IH Hs). reflexivity.
Qed.

Lemma split_app_sep (sep : Ascii.ascii) (x t : string) :
  occurs sep x = false →
  PyStr.split sep (x +:+ String sep t) = x :: PyStr.split sep t.
Proof.
  induction x as [|c x IH]; intros Hocc.
  - change ("" +:+ String sep t) with (String sep t).
    cbn [PyStr.split]. rewrite Ascii.eqb_refl. reflexivity.
  - rewrite app_cons_string. cbn in *.
    apply orb_false_elim in Hocc as [Hc Hx]. rewrite Hc, (IH Hx). reflexivity.
Qed.

Lemma split_join (sep : Ascii.ascii) (fields : list string) :
  fields ≠ [] → Forall (λ f, occurs sep f = false) fields →
  PyStr.split sep (PyStr.join (String sep "") fields) = fields.
Proof.
  intros Hne Hall. induction Hall as [|x l Hx Hl IH]; [done|].
  destruct l as [|y l].
  - cbn. by apply split_no_sep.
  - cbn [PyStr.join]. rewrite app_cons_string.
    change ("" +:+ PyStr.join (String sep "") (y :: l))
      with (PyStr.join (String sep "") (y :: l)).
    rewrite split_app_sep by exact Hx. f_equal. by apply IH.
Qed.

Lemma occurs_join (c : Ascii.ascii) (sep : string) (fields : list string) :
  occurs c sep = false → Forall (λ f, occurs c f = false) fields →
  occurs c (PyStr.join sep fields) = false.
Proof.
  intros Hsep Hall. induction Hall as [|x l Hx Hl IH]; [reflexivity|].
  destruct l as [|y l]; [exact Hx|].
  change (PyStr.join sep (x :: y :: l))
    with (x +:+ sep +:+ PyStr.join sep (y :: l)).
  rewrite !occurs_app, Hx, Hsep, IH. reflexivity.
Qed.

(** The fields of ["cron:" + "f1,...,fn"] are [f1, ..., fn]. *)
Lemma cron_parts_join (fields : list string) :
  fields ≠ [] →
  Forall (λ f, occurs "," f = false ∧ occurs ":" f = false) fields →
  cron_parts ("cron:" +:+ PyStr.join "," fields) = fields.
Proof.
  intros Hne Hall. unfold cron_parts.
  rewrite replace_cron_prefix.
  - apply split_join; [exact Hne|]. eapply Forall_impl; [exact Hall|].
    by intros f [? _].
  - apply occurs_join; [reflexivity|]. eapply Forall_impl; [exact Hall|].
    by intros f [_ ?].
Qed.

End CronParsing.

(** X9. The [schedule] command with [--schedule cron] and a cron expression
    made of non-empty fields without commas or colons, joined by commas,
    produces a spec that the scheduler splits into exactly those fields: the
    expression reaches [crontab] field by field, and is taken as a custom
    schedule exactly when it has five of them. *)
Theorem cron_expression_round_trip (fields : list string) :
  fields ≠ [] →
  Forall (λ f, f ≠ "" ∧ text.occurs "," f = false ∧ text.occurs ":" f = false)
    fields →
  let spec := main.schedule_type "cron" (Some (PyStr.join "," fields)) in
  PyStr.startswith spec "cron:" = true
  ∧ cron_parts spec = fields
  ∧ (length (cron_parts spec) = 5 ↔ length fields = 5).
Proof.
  intros Hne Hall spec.
  assert (Hspec : spec = "cron:" +:+ PyStr.join "," fields).
  { subst spec. unfold main.schedule_type. cbn.
    destruct fields as [|x l]; [done|].
    apply Forall_cons in Hall as [[Hx _] _].
    destruct x as [|c x]; [done|].
    destruct l; reflexivity. }
  assert (Hparts : cron_parts spec = fields).
  { rewrite Hspec. apply cron_parts_join; [exact Hne|].
    eapply Forall_impl; [exact Hall|]. by intros f (_ & ? & ?). }
  split; [|split; [exact Hparts|by rewrite Hparts]].
  rewrite Hspec. unfold PyStr.startswith. rewrite !app_cons_string.
  change ("" +:+ PyStr.join "," fields) with (PyStr.join "," fields).
  cbn. by destruct (PyStr.join "," fields).
Qed.

Lemma cron_expression_round_trip_witness :
  ["0"; "30"; "*"; "*"; "*"] ≠ []
  ∧ Forall (λ f, f ≠ "" ∧ text.occurs "," f = false ∧ text.occurs ":" f = false)
      ["0"; "30"; "*"; "*"; "*"]
  ∧ main.schedule_type "cron" (Some "0,30,*,*,*") = "cron:0,30,*,*,*"
  ∧ cron_parts (main.schedule_type "cron" (Some (PyStr.join "," ["0"; "30"; "*"; "*"; "*"])))
    = ["0"; "30"; "*"; "*"; "*"].
Proof.
  assert (Hne : ["0"; "30"; "*"; "*"; "*"] ≠ @nil string) by discriminate.
  assert (Hall : Forall (λ f, f ≠ "" ∧ text.occurs "," f = false
                              ∧ text.occurs ":" f = false)
                   ["0"; "30"; "*"; "*"; "*"]).
  { repeat constructor; discriminate. }
  split; [exact Hne|]. split; [exact Hall|]. split; [reflexivity|].
  apply (cron_expression_round_trip ["0"; "30"; "*"; "*"; "*"] Hne Hall).
Defined.

(** ** Scheduling and removing together *)

Lemma without_keys_lookup_other (jid : Z) (b : gmap string BeatEntry) (key : string) :
  key ∉ schedule_keys jid → without_keys jid b !! key = b !! key.
Proof.
  unfold schedule_keys, without_keys. intros Hnot.
  rewrite !lookup_delete_ne; [reflexivity|..]; intros <-; apply Hnot; set_solver.
Qed.

(** X10. Removing a job touches nothing of the others: job rows with a
    different id are unchanged, every beat key that is not one of the
    job's own four is unchanged, so the triggers of every other job stay
    registered, and the scraped data is unchanged. *)
Theorem remove_scheduled_job_frame (jid : Z) (w : World) :
  let w' := snd (remove_scheduled_job jid w) in
  (∀ i row, scraping_jobs (db w) !! i = Some row → job_id row ≠ jid →
            scraping_jobs (db w') !! i = Some row)
  ∧ (∀ key, key ∉ schedule_keys jid →
            beat_schedule w' !! key = beat_schedule w !! key)
  ∧ (∀ jid' key, jid' ≠ jid → key ∈ schedule_keys jid' →
                 beat_schedule w' !! key = beat_schedule w !! key)
  ∧ scraped_data (db w') = scraped_data (db w).
Proof.
  cbn zeta. rewrite remove_scheduled_job_eq. cbn.
  split; [|split; [|split]].
  - intros i row Hrow Hne. change (map ?f ?l) with (f <$> l).
    rewrite list_lookup_fmap, Hrow. cbn. f_equal. unfold update_row.
    destruct (Z.eqb_spec (job_id row) jid); [contradiction|reflexivity].
  - intros key. apply without_keys_lookup_other.
  - intros jid' key Hne Hk. apply without_keys_lookup_other.
    by apply (schedule_keys_disjoint jid' jid).
  - reflexivity.
Qed.

(** X11. Scheduling a job and then removing it by the id that was returned
    undoes the registration: in a store with distinct, bounded ids and a
    beat schedule holding none of the new id's keys, the beat schedule is
    back to what it was, the list of active jobs is what it was, and the
    job table has gained exactly the new row, inactive. *)
Theorem schedule_then_remove (env : Env) (url schedule : string)
    (use_sel : bool) (w : World) :
  well_formed (db w) →
  (∀ key, key ∈ schedule_keys (scraping_jobs_seq (db w) + 1)%Z →
          beat_schedule w !! key = None) →
  ∃ jid w1 w2,
    schedule_url env url schedule use_sel w = (Normal jid, w1)
    ∧ remove_scheduled_job jid w1 = (Normal (), w2)
    ∧ beat_schedule w2 = beat_schedule w
    ∧ scraping_jobs (db w2)
      = (scraping_jobs (db w)
           ++ [mkJobRow jid url schedule None None "inactive" (clock w)])%list
    ∧ get_active_jobs (db w2) = get_active_jobs (db w).
Proof.
  intros (_ & _ & _ & Hle) Hfree.
  destruct (schedule_url_effect env url schedule use_sel w)
    as (key & s & Hkey & Heq).
  set (jid := (scraping_jobs_seq (db w) + 1)%Z) in *.
  eexists jid, _, _. split; [exact Heq|].
  split; [apply remove_scheduled_job_eq|]. cbn.
  assert (Hjobs :
    map (update_row jid "inactive" None)
      (scraping_jobs (db w) ++ [mkJobRow jid url schedule None None "active" (clock w)])
    = (scraping_jobs (db w)
         ++ [mkJobRow jid url schedule None None "inactive" (clock w)])%list).
  { rewrite map_app. cbn. unfold update_row at 2. cbn. rewrite Z.eqb_refl.
    f_equal. rewrite <- (map_id (scraping_jobs (db w))) at 2.
    apply map_ext_in. intros r Hr. unfold update_row.
    rewrite Forall_forall in Hle. apply list_elem_of_In in Hr.
    specialize (Hle r Hr).
    destruct (Z.eqb_spec (job_id r) jid); [subst jid; lia|reflexivity]. }
  split; [|split].
  - apply map_eq. intros k.
    destruct (decide (k ∈ schedule_keys jid)) as [Hin|Hnot].
    + rewrite without_keys_lookup by exact Hin. symmetry. by apply Hfree.
    + rewrite without_keys_lookup_other by exact Hnot.
      apply lookup_insert_ne. intros ->. contradiction.
  - exact Hjobs.
  - unfold get_active_jobs.
    match goal with
    | |- merge_sort _ (filter _ ?l) = _ =>
        replace l
          with (scraping_jobs (db w)
                  ++ [mkJobRow jid url schedule None None "inactive" (clock w)])%list
          by (symmetry; exact Hjobs)
    end.
    rewrite filter_app.
    rewrite (filter_cons_False _ (mkJobRow _ _ _ _ _ _ _)) by (cbn; discriminate).
    rewrite filter_nil, app_nil_r. reflexivity.
Qed.

Lemma schedule_then_remove_witness :
  well_formed (db sample.w1)
  ∧ (∀ key, key ∈ schedule_keys (scraping_jobs_seq (db sample.w1) + 1)%Z →
            beat_schedule sample.w1 !! key = None)
  ∧ ∃ jid w1 w2,
      schedule_url sample.env0 "u" "weekly" true sample.w1 = (Normal jid, w1)
      ∧ remove_scheduled_job jid w1 = (Normal (), w2)
      ∧ beat_schedule w2 = beat_schedule sample.w1
      ∧ scraping_jobs (db w2)
        = (scraping_jobs (db sample.w1)
             ++ [mkJobRow jid "u" "weekly" None None "inactive" (clock sample.w1)])%list
      ∧ get_active_jobs (db w2) = get_active_jobs (db sample.w1).
Proof.
  assert (Hwf : well_formed (db sample.w1)).
  { split; [apply NoDup_nil_2|]. split; [apply Forall_nil_2|].
    split; [apply NoDup_singleton|]. apply Forall_singleton.
    vm_compute. discriminate. }
  assert (Hfree : ∀ key, key ∈ schedule_keys (scraping_jobs_seq (db sample.w1) + 1)%Z →
                         beat_schedule sample.w1 !! key = None).
  { intros key Hin. cbn in Hin.
    repeat (apply elem_of_cons in Hin as [-> | Hin]);
      [..| by apply elem_of_nil in Hin]; vm_compute; reflexivity. }
  split; [exact Hwf|]. split; [exact Hfree|].
  apply (schedule_then_remove sample.env0 "u" "weekly" true sample.w1 Hwf Hfree).
Defined.

(** X12. After [schedule_url], [get_scheduled_jobs()] lists the new job,
    active and with the target and spec as given, together with exactly
    the jobs it listed before. *)
Theorem schedule_url_lists_job (env : Env) (url schedule : string)
    (use_sel : bool) (w : World) :
  ∃ jid w',
    schedule_url env url schedule use_sel w = (Normal jid, w')
    ∧ get_active_jobs (db w')
      ≡ₚ mkJobRow jid url schedule None None "active" (clock w)
         :: get_active_jobs (db w).
Proof.
  destruct (schedule_url_effect env url schedule use_sel w)
    as (key & s & Hkey & Heq).
  eexists _, _. split; [exact Heq|]. unfold get_active_jobs. cbn.
  rewrite !merge_sort_Permutation, filter_app.
  rewrite filter_cons_True by reflexivity. rewrite filter_nil.
  symmetry. apply Permutation_cons_append.
Qed.

(** ** The tasks *)

(** X13. No execution of [scrape_url_task] returns the success dictionary
    or stores a scraped page: it either asks for a retry and writes
    nothing, or writes one row whose source is ['celery_task'], whose title
    and content are empty and whose status begins with ["error:"]. It never
    touches the job table or the beat schedule. *)
Theorem scrape_url_task_never_stores_a_page (env : Env) (retries : nat)
    (url : string) (use_sel : bool) (w : World) :
  let '(exit, w') := scrape_url_task env retries url use_sel w in
  (∀ rid u r, exit ≠ Returned (SingleOk rid u r))
  ∧ ((∃ c e, exit = RetryIn c e ∧ w' = w)
     ∨ (∃ e row,
          exit = Returned (SingleFailed url e)
          ∧ scraped_data (db w') = (scraped_data (db w) ++ [row])%list
          ∧ sd_url row = url ∧ sd_source row = "celery_task"
          ∧ sd_title row = "" ∧ sd_content row = "" ∧ sd_metadata row = ∅
          ∧ PyStr.startswith (sd_status row) "error:" = true))
  ∧ scraping_jobs (db w') = scraping_jobs (db w)
  ∧ beat_schedule w' = beat_schedule w.
Proof.
  destruct (Nat.lt_ge_cases retries max_retries) as [Hlt|Hge].
  - rewrite scrape_url_task_retry by exact Hlt.
    split; [discriminate|]. split; [|done]. left. by eexists _, _.
  - rewrite scrape_url_task_exhausted by exact Hge.
    split; [discriminate|]. split; [|done]. right.
    eexists _, _. split; [reflexivity|]. cbn. split; [reflexivity|].
    repeat split.
Qed.

Lemma pow2_ge_8 (n : nat) : 3 ≤ n → 2 ^ 3 ≤ 2 ^ n.
Proof. intros H. apply Nat.pow_le_mono_r; lia. Qed.

(** X14. Started at any retry count, the worker needs no more than the
    remaining executions: from count [r] it waits [60 * 2 ^ i] seconds for
    each [i] from [r] up to 2, then writes the failure; from a count of 3
    or more it writes the failure at once. The failure is therefore
    recorded [60 * (8 - 2 ^ r)] seconds after the execution began, 420
    seconds for a fresh task, and exactly one row is added. *)
Theorem worker_run_from_any_count (env : Env) (url : string) (use_sel : bool)
    (retries extra : nat) (w : World) :
  let '(countdowns, final, w') :=
    worker_run env (S (max_retries - retries) + extra) retries url use_sel w in
  countdowns = map (λ i, 60 * 2 ^ i) (seq retries (max_retries - retries))
  ∧ final = Some (Normal (SingleFailed url (no_context_manager env "ScrapingManager")))
  ∧ clock w' = (clock w + Z.of_nat (60 * (2 ^ max_retries - 2 ^ retries)))%Z
  ∧ length (scraped_data (db w')) = S (length (scraped_data (db w))).
Proof.
  assert (Hdone : ∀ r fuel w0, max_retries ≤ r →
            worker_run env (S fuel) r url use_sel w0
            = ([], Some (Normal (SingleFailed url
                                   (no_context_manager env "ScrapingManager"))),
               set_db (snd (insert_scraped_data (clock w0)
                              (error_result url "celery_task"
                                 (no_context_manager env "ScrapingManager"))
                              (db w0))) w0)).
  { intros r fuel w0 Hr. cbn [worker_run].
    rewrite scrape_url_task_exhausted by exact Hr. reflexivity. }
  assert (Hstep : ∀ r fuel w0, r < max_retries →
            worker_run env (S fuel) r url use_sel w0
            = (let '(cs, f, w1) :=
                 worker_run env fuel (S r) url use_sel (advance (60 * 2 ^ r) w0) in
               (60 * 2 ^ r :: cs, f, w1))).
  { intros r fuel w0 Hr. cbn [worker_run].
    rewrite scrape_url_task_retry by exact Hr. reflexivity. }
  unfold max_retries in *.
  destruct retries as [|[|[|r]]].
  - cbn [Nat.sub Nat.add]. rewrite Hstep by lia. rewrite Hstep by lia.
    rewrite Hstep by lia. rewrite Hdone by lia. cbn.
    rewrite length_app. cbn. repeat split; lia.
  - cbn [Nat.sub Nat.add]. rewrite Hstep by lia. rewrite Hstep by lia.
    rewrite Hdone by lia. cbn.
    rewrite length_app. cbn. repeat split; lia.
  - cbn [Nat.sub Nat.add]. rewrite Hstep by lia.
    rewrite Hdone by lia. cbn.
    rewrite length_app. cbn. repeat split; lia.
  - replace (3 - S (S (S r))) with 0 by lia. cbn [Nat.add].
    rewrite Hdone by lia. cbn [seq map].
    pose proof (pow2_ge_8 (S (S (S r))) ltac:(lia)) as Hpow.
    replace (2 ^ 3 - 2 ^ S (S (S r))) with 0 by lia.
    cbn. rewrite length_app. cbn. repeat split; lia.
Qed.

(** X15. The per-target loop of the batch task, run on any list of URLs
    from any manager, never raises and handles every URL once and in order:
    it returns one result per URL, inserts one row per URL carrying that
    result's URL and status, and the counts of the summary add up to the
    number of URLs. The job table and the beat schedule are not touched. *)
Theorem batch_loop_one_row_per_url (env : Env) (urls : list string)
    (mgr : ScrapingManager) (w : World) :
  ∃ mgr' results rows w',
    batch_loop env urls (mgr, []) w = (Normal (mgr', results), w')
    ∧ map r_url results = urls
    ∧ scraped_data (db w') = (scraped_data (db w) ++ rows)%list
    ∧ map sd_url rows = urls
    ∧ map sd_status rows = map r_status results
    ∧ (∃ successful failed,
         batch_summary urls results
         = BatchOk (length urls) successful failed results
         ∧ successful + failed = length urls
         ∧ successful = length (filter (λ r, r_status r = "success") results))
    ∧ scraping_jobs (db w') = scraping_jobs (db w)
    ∧ beat_schedule w' = beat_schedule w.
Proof.
  destruct (batch_loop_spec env urls mgr [] w)
    as (mgr' & new & rows & w' & Hloop & Hurls & Hdb & Hrows & Hsts & Hjobs & Hbeat).
  exists mgr', new, rows, w'. cbn in Hloop.
  split; [exact Hloop|]. split; [exact Hurls|]. split; [exact Hdb|].
  split; [exact Hrows|]. split; [exact Hsts|]. split; [|done].
  eexists _, _. split; [reflexivity|]. split.
  - rewrite summary_counts, <- Hurls, length_map. reflexivity.
  - unfold is_success. rewrite filter_eqb_decide. reflexivity.
Qed.

(** ** The extractor's results *)

Lemma error_not_success (e : string) : "error: " +:+ e ≠ "success".
Proof. rewrite !app_cons_string. discriminate. Qed.

(** X16. Whatever the network and the browser do, [scrape] returns a result
    for the URL it was given, attributed to the strategy the scraper's flag
    selects, and its status is either ['success'] or begins with ["error:"];
    in the latter case title and content are empty and the metadata is the
    empty dictionary. *)
Theorem scrape_result_contract (n : Net) (s : WebScraper) (url : string) :
  let r := scrape n s url in
  r_url r = url
  ∧ r_source r = (if use_selenium s then "selenium" else "requests")
  ∧ (r_status r = "success"
     ∨ (PyStr.startswith (r_status r) "error:" = true
        ∧ r_status r ≠ "success"
        ∧ r_title r = "" ∧ r_content r = "" ∧ r_metadata r = ∅)).
Proof.
  cbn zeta. split; [apply scrape_url|].
  assert (Herr : ∀ src e,
            r_status (error_result url src e) = "success"
            ∨ (PyStr.startswith (r_status (error_result url src e)) "error:" = true
               ∧ r_status (error_result url src e) ≠ "success"
               ∧ r_title (error_result url src e) = ""
               ∧ r_content (error_result url src e) = ""
               ∧ r_metadata (error_result url src e) = ∅)).
  { intros src e. right. split; [exact (startswith_error e)|].
    split; [exact (error_not_success e)|done]. }
  unfold scrape, scrape_with_selenium, scrape_with_requests.
  destruct (use_selenium s).
  - destruct (driver s); [|split; [reflexivity|apply Herr]].
    destruct (browser_get n url); [split; [reflexivity|by left]|].
    split; [reflexivity|apply Herr].
  - destruct (http_get n url) as [resp|e]; [|split; [reflexivity|apply Herr]].
    destruct (raise_for_status url resp); [|split; [reflexivity|apply Herr]].
    destruct (_extract_content (content resp)). split; [reflexivity|by left].
Qed.


Lemma length_omap_le {A B} (f : A → option B) (l : list A) :
  length (omap f l) ≤ length l.
Proof.
  induction l as [|x l IH]; [reflexivity|]. cbn. destruct (f x); cbn; lia.
Qed.

Lemma first_ten_attr_length (s : bs4.soup) (t attr : string) :
  length (first_ten_attr s t attr) ≤ 10.
Proof.
  unfold first_ten_attr. etrans; [apply length_omap_le|].
  rewrite length_take. lia.
Qed.

Lemma truthy_nonempty (s : string) : PyStr.truthy s = true → s ≠ "".
Proof.
  unfold PyStr.truthy. intros H ->. discriminate H.
Qed.

(** The entries the meta tags contribute: non-empty names with non-empty
    string values. *)
Lemma add_meta_entries (metas : list bs4.node) (md : gmap string MetaVal) :
  (∀ k v, md !! k = Some v → ∃ c, v = MStr c ∧ c ≠ "" ∧ k ≠ "") →
  ∀ k v, foldl add_meta md metas !! k = Some v → ∃ c, v = MStr c ∧ c ≠ "" ∧ k ≠ "".
Proof.
  revert md. induction metas as [|m metas IH]; intros md Hmd; [exact Hmd|].
  cbn [foldl]. apply IH. intros k v. unfold add_meta.
  destruct (PyStr.or_else (bs4.get m "name") (bs4.get m "property")) as [nm|];
    [|apply Hmd].
  destruct (bs4.get m "content") as [c|]; [|apply Hmd].
  destruct (PyStr.truthy nm) eqn:Hn; [|apply Hmd].
  destruct (PyStr.truthy c) eqn:Hc; [|apply Hmd]. cbn.
  rewrite lookup_insert. case_decide as Hk; [|apply Hmd].
  intros [= <-]. subst k. exists c.
  split; [reflexivity|]. split; by apply truthy_nonempty.
Qed.

(** X18. The metadata of a static result always has the four entries the
    extractor adds itself: [status_code] and [content_type] of the response
    (the empty string when the header is missing) and the lists [links] and
    [images], each of at most ten addresses. A meta tag of one of these
    names never shows through. Every other entry comes from a meta tag: its
    key is non-empty and its value a non-empty string. *)
Theorem extract_metadata_entries (s : bs4.soup) (resp : Response) :
  let md := _extract_metadata s resp in
  md !! "status_code" = Some (MInt (status_code resp))
  ∧ md !! "content_type" = Some (MStr (default "" (content_type resp)))
  ∧ (∃ links, md !! "links" = Some (MList links) ∧ length links ≤ 10)
  ∧ (∃ images, md !! "images" = Some (MList images) ∧ length images ≤ 10)
  ∧ (∀ k v, md !! k = Some v →
       k ∈ ["links"; "images"; "status_code"; "content_type"]
       ∨ ∃ c, v = MStr c ∧ c ≠ "" ∧ k ≠ "").
Proof.
  cbn zeta. unfold _extract_metadata.
  split; [rewrite lookup_insert_ne by done; apply lookup_insert_eq|].
  split; [apply lookup_insert_eq|].
  split; [eexists; split;
          [rewrite !lookup_insert_ne by done; apply lookup_insert_eq
          |apply first_ten_attr_length]|].
  split; [eexists; split;
          [rewrite !lookup_insert_ne by done; apply lookup_insert_eq
          |apply first_ten_attr_length]|].
  intros k v Hkv.
  destruct (decide (k ∈ ["links"; "images"; "status_code"; "content_type"]))
    as [Hin|Hnot]; [by left|]. right.
  rewrite !lookup_insert_ne in Hkv by (intros <-; apply Hnot; set_solver).
  revert Hkv. apply add_meta_entries. intros k' v' Hk'.
  by rewrite lookup_empty in Hk'.
Qed.

(** ** Removing script and style elements *)

Section NodeInduction.
Variable P : bs4.node → Prop.
Hypothesis HText : ∀ s, P (bs4.Text s).
Hypothesis HElem : ∀ t a kids, Forall P kids → P (bs4.Elem t a kids).

Fixpoint node_induction (n : bs4.node) : P n :=
  match n with
  | bs4.Text s => HText s
  | bs4.Elem t a kids =>
      HElem t a kids
        ((fix all (l : list bs4.node) : Forall P l :=
            match l with
            | [] => Forall_nil_2 P
            | k :: rest => Forall_cons_2 P k rest (node_induction k) (all rest)
            end) kids)
  end.

End NodeInduction.

Lemma decompose_no_tag (tags : list string) (n : bs4.node) :
  ∀ m t, m ∈ flat_map bs4.elements (bs4.decompose tags n) →
         bs4.has_tag t m = true → t ∉ tags.
Proof.
  induction n as [s|t0 a kids IH] using node_induction; intros m t Hm Ht.
  - cbn in Hm. by apply elem_of_nil in Hm.
  - cbn [bs4.decompose] in Hm. case_bool_decide as Htag.
    + cbn in Hm. by apply elem_of_nil in Hm.
    + cbn [flat_map bs4.elements] in Hm. rewrite app_nil_r in Hm.
      apply elem_of_cons in Hm as [-> | Hm].
      * cbn in Ht. apply String.eqb_eq in Ht. by subst t.
      * apply list_elem_of_In, in_flat_map in Hm as (k' & Hk' & Hm).
        apply in_flat_map in Hk' as (k & Hk & Hk').
        rewrite Forall_forall in IH.
        assert (Hkin : k ∈ kids) by (by apply list_elem_of_In).
        apply (IH k Hkin m t); [|exact Ht].
        apply list_elem_of_In, in_flat_map. exists k'. by split.
Qed.

Lemma decompose_idem (tags : list string) (n : bs4.node) :
  flat_map (bs4.decompose tags) (bs4.decompose tags n) = bs4.decompose tags n.
Proof.
  induction n as [s|t0 a kids IH] using node_induction; [reflexivity|].
  cbn [bs4.decompose]. case_bool_decide as Htag; [reflexivity|].
  cbn [flat_map bs4.decompose]. rewrite bool_decide_eq_false_2 by exact Htag.
  rewrite app_nil_r. do 2 f_equal.
  induction IH as [|k rest Hk _ IHrest]; [reflexivity|].
  cbn [flat_map]. rewrite flat_map_app, Hk, IHrest. reflexivity.
Qed.

Lemma decompose_strings (tags : list string) (n : bs4.node) :
  flat_map bs4.strings (bs4.decompose tags n) `sublist_of` bs4.strings n.
Proof.
  induction n as [s|t0 a kids IH] using node_induction.
  - cbn. reflexivity.
  - cbn [bs4.decompose]. case_bool_decide as Htag.
    + cbn. apply sublist_nil_l.
    + cbn [flat_map bs4.strings]. rewrite app_nil_r.
      induction IH as [|k rest Hk _ IHrest]; [reflexivity|].
      cbn [flat_map]. rewrite flat_map_app. by apply sublist_app.
Qed.

(** X19. After [_extract_content] the soup holds no [script] and no
    [style] element at any depth, the strings left in it are strings of the
    original document in their original order, and cleaning it again
    changes nothing; so neither the body nor the metadata read afterwards
    can contain anything from inside such an element. *)
Theorem extract_content_strips_scripts (s : bs4.soup) :
  let cleaned := snd (_extract_content s) in
  (∀ m, m ∈ flat_map bs4.elements cleaned →
        bs4.has_tag "script" m = false ∧ bs4.has_tag "style" m = false)
  ∧ flat_map bs4.strings cleaned `sublist_of` flat_map bs4.strings s
  ∧ snd (_extract_content cleaned) = cleaned.
Proof.
  assert (Hcleaned : snd (_extract_content s)
                     = bs4.decompose_all ["script"; "style"] s).
  { unfold _extract_content. by destruct (first_region _ _). }
  cbn zeta. rewrite Hcleaned. clear Hcleaned. unfold bs4.decompose_all.
  split; [|split].
  - intros m Hm.
    apply list_elem_of_In, in_flat_map in Hm as (k & Hk & Hm).
    apply in_flat_map in Hk as (n & Hn & Hk).
    assert (Hno : ∀ t, bs4.has_tag t m = true → t ∉ ["script"; "style"]).
    { intros t. apply (decompose_no_tag _ n).
      apply list_elem_of_In, in_flat_map. exists k. by split. }
    split; apply not_true_is_false; intros Ht; apply (Hno _ Ht); set_solver.
  - induction s as [|n rest IH]; [reflexivity|].
    cbn [flat_map]. rewrite flat_map_app.
    apply sublist_app; [apply decompose_strings|exact IH].
  - assert (Hagain : snd (_extract_content
                            (flat_map (bs4.decompose ["script"; "style"]) s))
                     = flat_map (bs4.decompose ["script"; "style"])
                         (flat_map (bs4.decompose ["script"; "style"]) s)).
    { unfold _extract_content, bs4.decompose_all.
      by destruct (first_region _ _). }
    rewrite Hagain. clear Hagain.
    induction s as [|n rest IH]; [reflexivity|].
    cbn [flat_map]. rewrite flat_map_app, decompose_idem, IH. reflexivity.
Qed.

(** ** Scrapers and their manager *)

(** X20. A scraper whose browser started keeps asking for the browser after
    [close()]: the flag stays on, the driver is gone, and every later
    [scrape] returns the error result ['error: Selenium not initialized']
    without trying the network; there is no fallback to the static fetch. *)
Theorem scrape_after_close (n : Net) (hl : bool) (url : string) :
  chrome_start n hl = Started →
  let s := __init__ n true hl in
  use_selenium s = true
  ∧ driver s = Some ()
  ∧ scrape n s url = scrape_with_selenium n s url
  ∧ use_selenium (close s) = true
  ∧ scrape n (close s) url
    = error_result url "selenium" "Selenium not initialized"
  ∧ close (close s) = close s.
Proof.
  intros Hstart. cbn zeta. unfold __init__, _setup_selenium. cbn.
  rewrite Hstart. cbn. repeat split.
Qed.

Lemma scrape_after_close_witness :
  chrome_start sample_browser.net1 true = Started
  ∧ r_status (scrape sample_browser.net1 (__init__ sample_browser.net1 true true) "p")
    = "success"
  ∧ r_content (scrape sample_browser.net1 (__init__ sample_browser.net1 true true) "p")
    = "shown"
  ∧ scrape sample_browser.net1 (close (__init__ sample_browser.net1 true true)) "p"
    = error_result "p" "selenium" "Selenium not initialized".
Proof.
  split; [reflexivity|]. split; [vm_compute; reflexivity|].
  split; [vm_compute; reflexivity|].
  apply (scrape_after_close sample_browser.net1 true "p" eq_refl).
Defined.

(** X21. [get_scraper] creates at most one scraper per URL: asking again
    for the same URL returns the same scraper and leaves the manager as it
    is. The first request stores a scraper built with the manager's flag
    under that URL and changes no other entry. *)
Theorem get_scraper_caches (n : Net) (m : ScrapingManager) (url : string) :
  let '(s1, m1) := get_scraper n m url in
  get_scraper n m1 url = (s1, m1)
  ∧ scrapers m1 !! url = Some s1
  ∧ (∀ u, u ≠ url → scrapers m1 !! u = scrapers m !! u)
  ∧ (scrapers m !! url = None → s1 = __init__ n (sm_use_selenium m) true)
  ∧ (∀ s0, scrapers m !! url = Some s0 → s1 = s0 ∧ m1 = m)
  ∧ sm_use_selenium m1 = sm_use_selenium m.
Proof.
  unfold get_scraper. destruct (scrapers m !! url) as [s0|] eqn:Hs.
  - split; [by rewrite Hs|]. split; [done|]. split; [done|].
    split; [done|]. split; [by intros s' [= ->]|done].
  - cbn. rewrite lookup_insert_eq.
    split; [done|]. split; [done|].
    split; [intros u Hu; by apply lookup_insert_ne|done].
Qed.

Lemma scrape_multiple_fresh (n : Net) (flag : bool) (urls : list string) :
  ∀ m, sm_use_selenium m = flag →
       (∀ u s, scrapers m !! u = Some s → s = __init__ n flag true) →
       fst (scrape_multiple n m urls)
       = map (λ u, scrape n (__init__ n flag true) u) urls.
Proof.
  induction urls as [|url rest IH]; intros m Hflag Hinv; [reflexivity|].
  cbn [scrape_multiple map]. unfold get_scraper.
  destruct (scrapers m !! url) as [s0|] eqn:Hs.
  - specialize (IH m Hflag Hinv).
    destruct (scrape_multiple n m rest) as [results m']. cbn in *.
    rewrite (Hinv _ _ Hs), IH. reflexivity.
  - set (m1 := mkScrapingManager _ _).
    assert (IH1 : fst (scrape_multiple n m1 rest)
                  = map (λ u, scrape n (__init__ n flag true) u) rest).
    { apply IH; [exact Hflag|]. intros u s. subst m1. cbn.
      rewrite lookup_insert. case_decide; [|apply Hinv].
      intros [= <-]. by rewrite Hflag. }
    destruct (scrape_multiple n m1 rest) as [results m']. cbn in *.
    rewrite Hflag, IH1. reflexivity.
Qed.

Lemma batch_loop_scrape_multiple (env : Env) (urls : list string) :
  ∀ mgr acc w,
    ∃ w',
      batch_loop env urls (mgr, acc) w
      = (Normal (snd (scrape_multiple (net env) mgr urls),
                 (acc ++ fst (scrape_multiple (net env) mgr urls))%list), w').
Proof.
  induction urls as [|url rest IH]; intros mgr acc w.
  - exists w. cbn. rewrite app_nil_r. reflexivity.
  - cbn [batch_loop scrape_multiple].
    unfold mbind, Py_bind, bind, batch_iteration. cbn [fst snd].
    destruct (get_scraper (net env) mgr url) as [s mgr1]. cbn.
    match goal with
    | |- ∃ w', batch_loop env rest (mgr1, ?acc1) ?w1 = _ =>
        destruct (IH mgr1 acc1 w1) as [w' Hw']
    end.
    exists w'. rewrite Hw'.
    destruct (scrape_multiple (net env) mgr1 rest) as [results m']. cbn.
    rewrite <- app_assoc. reflexivity.
Qed.

(** X22. [scrape_multiple] on a new manager returns, in the order of the
    URLs, exactly what a scraper built with the manager's flag returns for
    each of them, one result per URL repeats included; and the results of
    the batch task's loop and the manager it leaves are the ones
    [scrape_multiple] computes. *)
Theorem scrape_multiple_results (env : Env) (flag : bool) (urls : list string)
    (w : World) :
  fst (scrape_multiple (net env) (ScrapingManager__init__ flag) urls)
  = map (λ u, scrape (net env) (__init__ (net env) flag true) u) urls
  ∧ length (fst (scrape_multiple (net env) (ScrapingManager__init__ flag) urls))
    = length urls
  ∧ ∃ w',
      batch_loop env urls (ScrapingManager__init__ flag, []) w
      = (Normal (snd (scrape_multiple (net env) (ScrapingManager__init__ flag) urls),
                 fst (scrape_multiple (net env) (ScrapingManager__init__ flag) urls)),
         w').
Proof.
  assert (Hres : fst (scrape_multiple (net env) (ScrapingManager__init__ flag) urls)
                 = map (λ u, scrape (net env) (__init__ (net env) flag true) u) urls).
  { apply scrape_multiple_fresh; [reflexivity|].
    intros u s. cbn. by rewrite lookup_empty. }
  split; [exact Hres|]. split; [rewrite Hres; apply length_map|].
  destruct (batch_loop_scrape_multiple env urls (ScrapingManager__init__ flag) [] w)
    as [w' Hw'].
  exists w'. exact Hw'.
Qed.

(** ** The command line *)

Import main.





(** X25. The [schedule] command with [--schedule cron] and no (or an
    empty) [--cron-expr] does not fail and does not make a custom schedule:
    the job is stored with the spec ['cron'] and gets the hourly trigger. *)
Theorem cron_without_expression_is_hourly (env : Env) (url : string)
    (cron_expr : option string) (use_sel : bool) (w : World) :
  PyStr.otruthy cron_expr = false →
  let jid := (scraping_jobs_seq (db w) + 1)%Z in
  ∃ w',
    schedule_command env url "cron" cron_expr use_sel w = (Normal jid, w')
    ∧ scraping_jobs (db w')
      = (scraping_jobs (db w)
           ++ [mkJobRow jid url "cron" None None "active" (clock w)])%list
    ∧ beat_schedule w'
      = <["scrape_hourly_" +:+ pretty jid := entry crontab_hourly url use_sel]>
          (beat_schedule w).
Proof.
  intros Hexpr jid. unfold schedule_command, schedule_type.
  rewrite Hexpr. cbn [String.eqb Ascii.eqb andb].
  eexists. unfold schedule_scraping, try_except. cbn.
  split; [reflexivity|]. cbn. split; reflexivity.
Qed.

Lemma cron_without_expression_is_hourly_witness :
  PyStr.otruthy (Some "") = false
  ∧ ∃ w',
      schedule_command sample.env0 "u" "cron" (Some "") false sample.w0
      = (Normal 1%Z, w')
      ∧ scraping_jobs (db w')
        = [mkJobRow 1 "u" "cron" None None "active" 1700000000]
      ∧ beat_schedule w'
        = <["scrape_hourly_1" := entry crontab_hourly "u" false]> ∅.
Proof.
  split; [reflexivity|].
  apply (cron_without_expression_is_hourly sample.env0 "u" (Some "") false
           sample.w0 eq_refl).
Defined.

(** ** The scripted strategy *)

Lemma first_region_selenium_spec (p : BrowserPage) (sels : list string) :
  match first_region_selenium p sels with
  | Some text =>
      ∃ i sel raw,
        sels !! i = Some sel ∧ bp_css_text p sel = Some raw
        ∧ text = PyStr.strip raw
        ∧ ∀ j sel', j < i → sels !! j = Some sel' → bp_css_text p sel' = None
  | None => ∀ sel, sel ∈ sels → bp_css_text p sel = None
  end.
Proof.
  induction sels as [|sel rest IH]; cbn.
  - intros sel Hin. by apply elem_of_nil in Hin.
  - destruct (bp_css_text p sel) as [raw|] eqn:Hsel.
    + exists 0, sel, raw. split; [reflexivity|]. split; [exact Hsel|].
      split; [reflexivity|]. lia.
    + destruct (first_region_selenium p rest) as [text|].
      * destruct IH as (i & sel0 & raw & Hi & Hm & Ht & Hbefore).
        exists (S i), sel0, raw. split; [exact Hi|]. split; [exact Hm|].
        split; [exact Ht|].
        intros [|j] sel' Hlt Hj; cbn in Hj.
        -- by simplify_eq.
        -- apply (Hbefore j); [lia|exact Hj].
      * intros sel' Hin. apply elem_of_cons in Hin as [->|Hin]; [exact Hsel|].
        by apply IH.
Qed.

(** X26. The scripted strategy picks the body with the same selector list
    in the same order: the stripped text of the element found for the first
    selector that finds one; when none does, the stripped text of [body];
    and when even that lookup raises, the empty string instead of an
    error. *)
Theorem extract_content_selenium_priority (p : BrowserPage) :
  let body := _extract_content_selenium p in
  (∃ i sel raw,
     content_selectors !! i = Some sel
     ∧ bp_css_text p sel = Some raw
     ∧ (∀ j sel', j < i → content_selectors !! j = Some sel' →
                  bp_css_text p sel' = None)
     ∧ body = PyStr.strip raw)
  ∨ ((∀ sel, sel ∈ content_selectors → bp_css_text p sel = None)
     ∧ body = match bp_body_text p with
              | Normal raw => PyStr.strip raw
              | Raised _ => ""
              end).
Proof.
  cbn zeta. unfold _extract_content_selenium.
  pose proof (first_region_selenium_spec p content_selectors) as Hspec.
  destruct (first_region_selenium p content_selectors) as [text|].
  - left. destruct Hspec as (i & sel & raw & Hi & Hm & Ht & Hbefore).
    exists i, sel, raw. done.
  - right. split; [exact Hspec|reflexivity].
Qed.

Lemma truthy_attrs_go_spec (l : list (outcome (option string))) :
  ∀ t, truthy_attrs_go l = Normal t →
       length t ≤ length l ∧ Forall (λ a, a ≠ "") t.
Proof.
  induction l as [|o l IH]; intros t Ht; cbn in Ht.
  - injection Ht as <-. split; [reflexivity|constructor].
  - destruct o as [o|e]; [|discriminate Ht].
    destruct (truthy_attrs_go l) as [t'|e]; [|discriminate Ht].
    destruct (IH t' eq_refl) as [Hlen Hall]. injection Ht as <-.
    destruct o as [a|]; cbn; [|split; [lia|exact Hall]].
    destruct (PyStr.truthy a) eqn:Ha; cbn; [|split; [lia|exact Hall]].
    split; [lia|]. constructor; [by apply truthy_nonempty|exact Hall].
Qed.

Lemma truthy_attrs_spec (l : list (outcome (option string))) (t : list string) :
  truthy_attrs l = Normal t → length t ≤ 10 ∧ Forall (λ a, a ≠ "") t.
Proof.
  unfold truthy_attrs. intros Ht.
  destruct (truthy_attrs_go_spec _ _ Ht) as [Hlen Hall].
  split; [|exact Hall]. rewrite length_take in Hlen. lia.
Qed.

Lemma truthy_attrs_go_normal (l : list (outcome (option string))) :
  Forall is_normal l → ∃ t, truthy_attrs_go l = Normal t.
Proof.
  induction 1 as [|o l Ho _ [t IH]]; [by exists []|].
  destruct o as [o|e]; [|contradiction]. cbn. rewrite IH. by eexists.
Qed.

Section SeleniumMetadata.
Import metadata_shape.

Lemma add_meta_selenium_meta_only (md : gmap string MetaVal) (m : MetaElement) :
  meta_only md → meta_only (add_meta_selenium md m).
Proof.
  intros Hmd k v. unfold add_meta_selenium.
  destruct (PyStr.or_else (me_name m) (me_property m)) as [nm|]; [|apply Hmd].
  destruct (me_content m) as [c|]; [|apply Hmd].
  destruct (PyStr.truthy nm) eqn:Hn; [|apply Hmd].
  destruct (PyStr.truthy c) eqn:Hc; [|apply Hmd]. cbn.
  rewrite lookup_insert. case_decide as Hk; [|apply Hmd].
  intros [= <-]. subst k. exists c.
  split; [reflexivity|]. split; by apply truthy_nonempty.
Qed.

Lemma add_metas_selenium_meta_only (metas : list (outcome MetaElement)) :
  ∀ md, meta_only md → meta_only (fst (add_metas_selenium md metas)).
Proof.
  induction metas as [|m metas IH]; intros md Hmd; [exact Hmd|].
  destruct m as [m|e]; [|exact Hmd].
  cbn [add_metas_selenium]. by apply IH, add_meta_selenium_meta_only.
Qed.

Lemma add_metas_selenium_normal (metas : list (outcome MetaElement)) :
  ∀ md, Forall is_normal metas → snd (add_metas_selenium md metas) = None.
Proof.
  induction metas as [|m metas IH]; intros md Hall; [reflexivity|].
  apply Forall_cons in Hall as [Hm Hall].
  destruct m as [m|e]; [|contradiction]. cbn [add_metas_selenium]. by apply IH.
Qed.

Lemma shape_meta_only (md : gmap string MetaVal) :
  meta_only md → selenium_shape md.
Proof.
  intros Hmd. split.
  - intros k v Hkv. right. by apply Hmd.
  - intros [l Hl]. apply Hmd in Hl as (c & Hc & _). discriminate Hc.
Qed.

Lemma shape_links (md : gmap string MetaVal) (hrefs : list string) :
  meta_only md → address_list (MList hrefs) →
  selenium_shape (<["links" := MList hrefs]> md).
Proof.
  intros Hmd Hh. split.
  - intros k v. rewrite lookup_insert. case_decide as Hk.
    + intros [= <-]. left. split; [by left|exact Hh].
    + intros Hkv. right. by apply Hmd.
  - intros _. exists hrefs. apply lookup_insert_eq.
Qed.

Lemma shape_images (md : gmap string MetaVal) (hrefs srcs : list string) :
  meta_only md → address_list (MList hrefs) → address_list (MList srcs) →
  selenium_shape (<["images" := MList srcs]> (<["links" := MList hrefs]> md)).
Proof.
  intros Hmd Hh Hs. split.
  - intros k v. rewrite lookup_insert. case_decide as Hk.
    + intros [= <-]. left. split; [by right|exact Hs].
    + rewrite lookup_insert. case_decide as Hk'.
      * intros [= <-]. left. split; [by left|exact Hh].
      * intros Hkv. right. by apply Hmd.
  - intros _. exists hrefs.
    rewrite lookup_insert_ne by done. apply lookup_insert_eq.
Qed.

Lemma address_list_truthy (l : list (outcome (option string))) (t : list string) :
  truthy_attrs l = Normal t → address_list (MList t).
Proof.
  intros Ht. exists t. split; [reflexivity|]. exact (truthy_attrs_spec l t Ht).
Qed.

Lemma extract_metadata_selenium_shape (p : BrowserPage) :
  selenium_shape (_extract_metadata_selenium p).
Proof.
  unfold _extract_metadata_selenium.
  destruct (bp_metas p) as [metas|e].
  2:{ apply shape_meta_only. intros k v Hk. by rewrite lookup_empty in Hk. }
  assert (Hmd : meta_only (fst (add_metas_selenium ∅ metas))).
  { apply add_metas_selenium_meta_only. intros k v Hk.
    by rewrite lookup_empty in Hk. }
  destruct (add_metas_selenium ∅ metas) as [md [err|]]; cbn in Hmd;
    [by apply shape_meta_only|].
  destruct (bp_links p) as [links|e]; [|by apply shape_meta_only].
  destruct (truthy_attrs links) as [hrefs|e] eqn:Hl; [|by apply shape_meta_only].
  apply address_list_truthy in Hl.
  destruct (bp_images p) as [images|e]; [|by apply shape_links].
  destruct (truthy_attrs images) as [srcs|e] eqn:Hi; [|by apply shape_links].
  apply address_list_truthy in Hi. by apply shape_images.
Qed.

End SeleniumMetadata.

(** X27. Whatever the driver does, [_extract_metadata_selenium] returns a
    dictionary and does not raise; any [links] or [images] list in it has
    at most ten addresses, all non-empty, every other entry comes from a
    meta tag (non-empty key, non-empty string value), there is no integer
    [status_code], and an [images] list is only there together with a
    [links] list. When the lookup of the meta elements raises the
    dictionary is empty; when no lookup and no reading of an attribute
    raises, both lists are there. *)
Theorem extract_metadata_selenium_entries (p : BrowserPage) :
  let md := _extract_metadata_selenium p in
  (∀ k v, md !! k = Some v →
     ((k = "links" ∨ k = "images")
      ∧ ∃ l, v = MList l ∧ length l ≤ 10 ∧ Forall (λ a, a ≠ "") l)
     ∨ ∃ c, v = MStr c ∧ c ≠ "" ∧ k ≠ "")
  ∧ (∀ n, md !! "status_code" ≠ Some (MInt n))
  ∧ ((∃ l, md !! "images" = Some (MList l)) → ∃ l', md !! "links" = Some (MList l'))
  ∧ (∀ e, bp_metas p = Raised e → md = ∅)
  ∧ (∀ metas links images,
       bp_metas p = Normal metas → Forall is_normal metas →
       bp_links p = Normal links → Forall is_normal (take 10 links) →
       bp_images p = Normal images → Forall is_normal (take 10 images) →
       (∃ l, md !! "links" = Some (MList l))
       ∧ (∃ l, md !! "images" = Some (MList l))).
Proof.
  cbn zeta. destruct (extract_metadata_selenium_shape p) as [Hentries Hboth].
  split; [exact Hentries|]. split; [|split; [exact Hboth|split]].
  - intros n Hn. apply Hentries in Hn as [[[Hk|Hk] _]|(c & Hc & _)];
      discriminate.
  - intros e He. unfold _extract_metadata_selenium. by rewrite He.
  - intros metas links images Hm Hmn Hl Hln Hi Hin.
    unfold _extract_metadata_selenium. rewrite Hm.
    pose proof (add_metas_selenium_normal metas ∅ Hmn) as Hnone.
    destruct (add_metas_selenium ∅ metas) as [md err]. cbn in Hnone. subst err.
    rewrite Hl. unfold truthy_attrs.
    destruct (truthy_attrs_go_normal _ Hln) as [hrefs ->].
    rewrite Hi. destruct (truthy_attrs_go_normal _ Hin) as [srcs ->].
    split; eexists.
    + rewrite lookup_insert_ne by done. apply lookup_insert_eq.
    + apply lookup_insert_eq.
Qed.

(** Two pages, evaluated: one that answers every reading, and one whose
    second link raises, which leaves only the meta entry. *)
Example extract_metadata_selenium_samples :
  (∀ page, browser_get sample_browser.net1 "p" = Normal page →
     _extract_metadata_selenium page
     = <["images" := MList []]>
         (<["links" := MList ["/a"]]> (<["author" := MStr "x"]> ∅)))
  ∧ _extract_metadata_selenium sample_browser.page_stale
    = <["author" := MStr "x"]> ∅.
Proof.
  split.
  - intros page [= <-]. vm_compute. reflexivity.
  - vm_compute. reflexivity.
Qed.
